(** * horoscope_video_bot.py: segment timing, chapter timeline and upload loop

    A shallow embedding of [src/horoscope_video_bot.py].  Times are seconds.
    A time is the rational number ([Q]) that the machine number holds; where
    the script adds, multiplies or divides machine numbers (the planned
    duration of line 302, the clock of the chapters, the length of the
    compilation, the upload percentage) the result is rounded to the nearest
    double, as the machine does ([Py.double]); the segment builder only
    compares durations and copies them.  Everything the script obtains from
    outside (environment variables, the horoscope service, the speech
    service, the media files, the video encoder, the OAuth material and the
    upload request) is a field of the record [World]; the script itself is a
    function of that record. *)

From Stdlib Require Import List String Ascii Bool Arith ZArith QArith Qround Qpower Lia Lqa.
Import ListNotations.

Open Scope string_scope.

(* ------------------------------------------------------------------ *)
(** ** Python primitives used by the script *)

Module Py.

(** [str.capitalize] on ASCII text: first letter upper, the rest lower. *)
Definition upper (c : ascii) : ascii :=
  let n := nat_of_ascii c in
  if (97 <=? n)%nat && (n <=? 122)%nat then ascii_of_nat (n - 32) else c.

Definition lower (c : ascii) : ascii :=
  let n := nat_of_ascii c in
  if (65 <=? n)%nat && (n <=? 90)%nat then ascii_of_nat (n + 32) else c.

Fixpoint map_string (f : ascii -> ascii) (s : string) : string :=
  match s with
  | EmptyString => EmptyString
  | String c r => String (f c) (map_string f r)
  end.

Definition capitalize (s : string) : string :=
  match s with
  | EmptyString => EmptyString
  | String c r => String (upper c) (map_string lower r)
  end.

(** [needle in hay] for two strings. *)
Fixpoint contains (needle hay : string) : bool :=
  if String.prefix needle hay then true
  else match hay with
       | EmptyString => false
       | String _ r => contains needle r
       end.

(** Truth value of a string, and of a value that may be [None]. *)
Definition truthy (s : string) : bool :=
  match s with EmptyString => false | _ => true end.

Definition truthy_opt (o : option string) : bool :=
  match o with None => false | Some s => truthy s end.

(** [x // y] and [x % y] on numbers with a fractional part, and [int(x)]
    (truncation towards zero).  On doubles that are not negative and below
    2^53, with [y] a whole number of that range, the machine computes both
    without rounding. *)
Definition floordiv (x y : Q) : Q := inject_Z (Qfloor (x / y)).

Definition mod_ (x y : Q) : Q := x - y * inject_Z (Qfloor (x / y)).

Definition int (x : Q) : Z :=
  if Qle_bool 0 x then Qfloor x else Qceiling x.

(** Decimal digits of a natural number, most significant first. *)
Definition digit (n : nat) : ascii := ascii_of_nat (48 + n).

Fixpoint digits_fuel (fuel n : nat) (acc : string) : string :=
  match fuel with
  | O => acc
  | S f =>
      let acc' := String (digit (n mod 10)) acc in
      if (n <? 10)%nat then acc' else digits_fuel f (n / 10) acc'
  end.

Definition str_nat (n : nat) : string := digits_fuel (S n) n EmptyString.

(** [f"{z:02d}"]: sign, then the digits, zero-filled to width two. *)
Definition format_02d (z : Z) : string :=
  if (z <? 0)%Z then "-" ++ str_nat (Z.to_nat (- z))
  else if (z <? 10)%Z then "0" ++ str_nat (Z.to_nat z)
  else str_nat (Z.to_nat z).

(** Machine numbers.  [double q] is the double nearest to [q], ties going
    to the even significand: 53 bits scaled by a power of two that is not
    below 2^-1074.  Numbers beyond the range of doubles (2^1024 and above)
    are not modelled. *)
Definition floor_log2 (q : Q) : Z :=
  let k := (Z.log2 (Qnum q) - Z.log2 (Zpos (Qden q)))%Z in
  if Qle_bool (2 ^ k) q then k else (k - 1)%Z.

Definition round_half_even (x : Q) : Z :=
  let f := Qfloor x in
  let r := x - inject_Z f in
  if Qle_bool r (1 # 2)
  then (if Qle_bool (1 # 2) r then (if Z.even f then f else f + 1)%Z else f)
  else (f + 1)%Z.

Definition exponent (q : Q) : Z := Z.max (-1074) (floor_log2 q - 52).

Definition double_pos (q : Q) : Q :=
  Qred (inject_Z (round_half_even (q / 2 ^ exponent q)) * 2 ^ exponent q).

Definition double (q : Q) : Q :=
  if Qle_bool q 0
  then (if Qle_bool 0 q then 0 else - double_pos (- q))
  else double_pos q.

(** [x + y], [x * y] and [x / y] on machine numbers. *)
Definition float_add (x y : Q) : Q := double (double x + double y).
Definition float_mul (x y : Q) : Q := double (double x * double y).
Definition float_div (x y : Q) : Q := double (double x / double y).

End Py.

(* ------------------------------------------------------------------ *)
(** ** The part of moviepy the script relies on

    Only what decides durations is kept: which layers a clip is made of, the
    audio attached to it, and its duration. *)

Module MoviePy.

Record AudioClip := mkAudio {
  a_filename : string;
  a_duration : Q
}.

Inductive Layer :=
| Image (path : string) (dur : Q)
| Text (txt : string) (dur : Q).

Definition layer_duration (l : Layer) : Q :=
  match l with Image _ d => d | Text _ d => d end.

Record VideoClip := mkClip {
  layers : list Layer;
  audio : option AudioClip;
  duration : Q
}.

(** What loading a file or rendering a text gives.  [None] stands for the
    exception the constructor raises. *)
Record Media := mkMedia {
  AudioFileClip : string -> option Q;   (* the decoded duration *)
  ImageClip : string -> bool;
  TextClip : string -> bool
}.

Definition Qgtb (x y : Q) : bool := negb (Qle_bool x y).
Definition Qltb (x y : Q) : bool := negb (Qle_bool y x).

(** [clip.subclip(0, t_end)]: a negative end counts from the end of the
    clip; the new duration is [t_end - t_start]. *)
Definition subclip0 (a : AudioClip) (t_end : Q) : AudioClip :=
  let t_end' := if Qltb t_end 0 then a_duration a + t_end else t_end in
  mkAudio (a_filename a) (t_end' - 0).

(** [CompositeVideoClip(clips)]: lasts as long as its longest layer. *)
Definition longest (m : Q) (l : Layer) : Q :=
  if Qltb m (layer_duration l) then layer_duration l else m.

Definition composite_duration (ls : list Layer) : Q :=
  match ls with
  | [] => 0
  | l :: rest => fold_left longest rest (layer_duration l)
  end.

Definition CompositeVideoClip (ls : list Layer) : VideoClip :=
  mkClip ls None (composite_duration ls).

Definition set_audio (v : VideoClip) (a : AudioClip) : VideoClip :=
  mkClip (layers v) (Some a) (duration v).

Definition set_duration (v : VideoClip) (d : Q) : VideoClip :=
  mkClip (layers v) (audio v) d.

End MoviePy.

Import MoviePy.

(* ------------------------------------------------------------------ *)
(** ** Results and the try/except discipline *)

Inductive PyExn := TypeError | IOError | PickleError | AttributeError.

Inductive Result (A : Type) :=
| Ok (a : A)
| Raise (e : PyExn).
Arguments Ok {A} a.
Arguments Raise {A} e.

(** The body of a [try] block as an [option]: [None] is "an exception was
    raised", and [orelse] is the handler. *)
Definition guard (b : bool) : option unit := if b then Some tt else None.

Definition obind {A B} (m : option A) (k : A -> option B) : option B :=
  match m with Some a => k a | None => None end.

Definition orelse {A} (m handler : option A) : option A :=
  match m with Some a => Some a | None => handler end.

Declare Scope try_scope.
Delimit Scope try_scope with try.
Notation "x <- m ;; k" := (obind m (fun x => k))
  (at level 100, m at next level, right associativity) : try_scope.
Notation "m ;; k" := (obind m (fun _ => k))
  (at level 100, right associativity) : try_scope.

(* ------------------------------------------------------------------ *)
(** ** create_segment_video *)

(** Lines 134-140: which of the three branches the audio test takes. *)
Definition audio_is_longer (audio_duration segment_duration : Q) : bool :=
  Qgtb audio_duration segment_duration.

Definition segment_body (m : Media) (sign_name horoscope_text image_path audio_path : string)
    (segment_duration : Q) : option VideoClip :=
  (guard (TextClip m horoscope_text) ;;
   let txt_clip := Text horoscope_text segment_duration in
   guard (TextClip m (Py.capitalize sign_name)) ;;
   let sign_title_clip := Text (Py.capitalize sign_name) segment_duration in
   guard (ImageClip m image_path) ;;
   let image_clip := Image image_path segment_duration in
   d <- AudioFileClip m audio_path ;;
   let audio_clip := mkAudio audio_path d in
   let audio_clip :=
     if audio_is_longer (a_duration audio_clip) segment_duration
     then subclip0 audio_clip segment_duration
     else audio_clip in
   let video_segment := CompositeVideoClip [image_clip; sign_title_clip; txt_clip] in
   let video_segment := set_audio video_segment audio_clip in
   let video_segment := set_duration video_segment (a_duration audio_clip) in
   Some video_segment)%try.

Definition segment_fallback (m : Media) (image_path audio_path : string) : option VideoClip :=
  (d <- AudioFileClip m audio_path ;;
   let audio_clip_fallback := mkAudio audio_path d in
   guard (ImageClip m image_path) ;;
   let image_clip_fallback := Image image_path (a_duration audio_clip_fallback) in
   Some (set_audio (CompositeVideoClip [image_clip_fallback]) audio_clip_fallback))%try.

Definition create_segment_video (m : Media)
    (sign_name horoscope_text image_path audio_path : string) (segment_duration : Q)
    : option VideoClip :=
  orelse (segment_body m sign_name horoscope_text image_path audio_path segment_duration)
         (segment_fallback m image_path audio_path).

(* ------------------------------------------------------------------ *)
(** ** The outside world and the state the script changes *)

(** What lines 74-77 meet for one sign.  [RequestException]: [requests.post],
    [raise_for_status()] or [response.json()] raises one (timeout, connection
    error, HTTP error status, and with requests 2.27 or later a body that is
    not JSON).  [JsonBody]: the body decodes to a dictionary, whose
    ['description'] is a string or is absent or null ([None]).
    [OtherException]: one of these lines raises something that is not a
    [RequestException]: [requests.post] itself (an [AttributeError] once
    [os.environ] is no longer a mapping), [data.get] on a body that is not an
    object, the slice of a description that is a number.  A description that
    is an array is not modelled. *)
Inductive HttpOutcome :=
| RequestException
| JsonBody (description : option string)
| OtherException (e : PyExn).

Record Credentials := mkCreds {
  valid : bool;
  expired : bool;
  refresh_token : bool
}.

(** [MediaUploadProgress]: bytes sent so far and the size of the file. *)
Record Progress := mkProgress {
  resumable_progress : Z;
  total_size : option Z
}.

(** The response dictionary of a finished upload: its ['id'] entry, if any. *)
Record Response := mkResponse { resp_id : option string }.

(** One call of [request.next_chunk()]. *)
Inductive ChunkResult :=
| ChunkRaises
| Chunk (status : option Progress) (response : option Response).

Record World := mkWorld {
  GOOGLE_CREDENTIALS_JSON_CONTENT : option string;
  YOUTUBE_CLIENT_SECRET_JSON_CONTENT : option string;
  YOUTUBE_TOKEN_PICKLE_BASE64 : option string;
  b64decode : string -> bool;                (* does the text decode? *)
  disk : list string;                        (* files present at start *)
  post : string -> HttpOutcome;              (* the horoscope service, by sign *)
  synthesize_speech : string -> bool;        (* the speech service, by text *)
  media : Media;
  write_videofile : bool;                    (* does the encoder succeed? *)
  pickle_load : Result Credentials;          (* content of the token file *)
  refresh : bool;                            (* does creds.refresh succeed? *)
  run_console : option Credentials;          (* the interactive flow *)
  today_date : string;
  next_chunk : nat -> ChunkResult;           (* the k-th call on the upload request *)
  pickle_dump : option PyExn;                (* what saving the token raises, if anything *)
  build : option PyExn;                      (* what building the service raises, if anything *)
  failed_write_leaves : list string          (* files a failed encoding leaves behind *)
}.

Inductive SkipReason := FetchError | TTSError | ImageMissing.

Inductive ExitPath :=
| NoSegments      (* the return of line 326 *)
| WriteFailed     (* the return of line 346 *)
| EndOfMain.      (* falling off the end, line 379 *)

(** How a call of [main] ends: a normal return, an exception that nothing
    catches, or an upload loop still turning when the fuel ran out. *)
Inductive Outcome :=
| Returned (p : ExitPath)
| Raised (e : PyExn)
| Running.

(** What a run does, in order: the messages of the script, and the steps
    it takes without a message ([SegmentAdded]: the segment of a sign joins
    the timeline, lines 311-316; [Removed]: a file is deleted). *)
Inductive Event :=
| Fetch (sign : string)
| Skipping (sign : string) (why : SkipReason)
| SegmentFailed (sign : string)
| SegmentAdded (sign : string)
| NoSegmentsCreated
| WriteVideo (path : string) (total : Q)
| GetService
| Upload (path title description : string)
| NextChunk (k : nat)
| UploadedPercent (p : Z)
| UploadedId (id : string)
| UploadError
| Removed (path : string)
| ProcessFinished.

Record State := mkState {
  files : list string;
  trace : list Event
}.

Definition exists_ (p : string) (st : State) : bool :=
  existsb (String.eqb p) (files st).

Definition write (p : string) (st : State) : State :=
  if exists_ p st then st else mkState (files st ++ [p]) (trace st).

Definition remove (p : string) (st : State) : State :=
  mkState (filter (fun q => negb (String.eqb p q)) (files st)) (trace st ++ [Removed p]).

Definition log (e : Event) (st : State) : State :=
  mkState (files st) (trace st ++ [e]).

(* ------------------------------------------------------------------ *)
(** ** Configuration *)

Definition join (dir name : string) : string := dir ++ "/" ++ name.

Definition OUTPUT_DIR := "output".
Definition IMAGE_DIR := "images".
Definition CLIENT_SECRETS_FILE_TEMP := join OUTPUT_DIR "client_secret.json".
Definition TOKEN_PICKLE_FILE_TEMP := join OUTPUT_DIR "token.pickle".
Definition SERVICE_ACCOUNT_FILE_TEMP := join OUTPUT_DIR "service_account.json".

Definition ZODIAC_SIGNS : list string :=
  ["aries"; "taurus"; "gemini"; "cancer"; "leo"; "virgo";
   "libra"; "scorpio"; "sagittarius"; "capricorn"; "aquarius"; "pisces"].

(* ------------------------------------------------------------------ *)
(** ** Helper functions of the script *)

(** Line 49, [os.environ = SERVICE_ACCOUNT_FILE_TEMP], run when the first
    variable is set: from then on [os.environ] is a string, and what reads it
    as a mapping raises [AttributeError]: every [requests.post], and [build].
    It changes no file; it changes what the services do. *)
Definition environ_after_setup (w : World) : World :=
  if Py.truthy_opt (GOOGLE_CREDENTIALS_JSON_CONTENT w)
  then mkWorld (GOOGLE_CREDENTIALS_JSON_CONTENT w) (YOUTUBE_CLIENT_SECRET_JSON_CONTENT w)
         (YOUTUBE_TOKEN_PICKLE_BASE64 w) (b64decode w) (disk w)
         (fun _ => OtherException AttributeError)
         (synthesize_speech w) (media w) (write_videofile w) (pickle_load w)
         (refresh w) (run_console w) (today_date w) (next_chunk w) (pickle_dump w)
         (Some AttributeError) (failed_write_leaves w)
  else w.

(** Lines 42-67, as far as files go; line 49 is [environ_after_setup].
    Files in the output directory are taken to be writable. *)
Definition setup_credentials (w : World) (st : State) : State :=
  let st :=
    if Py.truthy_opt (GOOGLE_CREDENTIALS_JSON_CONTENT w)
    then write SERVICE_ACCOUNT_FILE_TEMP st else st in
  let st :=
    if Py.truthy_opt (YOUTUBE_CLIENT_SECRET_JSON_CONTENT w)
    then write CLIENT_SECRETS_FILE_TEMP st else st in
  match YOUTUBE_TOKEN_PICKLE_BASE64 w with
  | Some b64 =>
      if Py.truthy b64 && b64decode w b64
      then write TOKEN_PICKLE_FILE_TEMP st else st
  | None => st
  end.

Definition apology (sign : string) : string :=
  "Apologies, " ++ sign ++ ". We couldn't retrieve your horoscope at this moment.".

(** [data.get('description')[:50]] and [data.get('description', default)]. *)
Definition preview (description : option string) : Result string :=
  match description with
  | Some d => Ok (String.substring 0 50 d)
  | None => Raise TypeError          (* None[:50] *)
  end.

Definition get_description (description : option string) (default : string) : string :=
  match description with Some d => d | None => default end.

(** Lines 72-81.  Line 77 slices the description for the log line before
    line 78 returns, and the [except] clause only names [RequestException]:
    whatever else the slice raises leaves the function. *)
Definition fetch_horoscope (w : World) (sign : string) : Result string :=
  match post w sign with
  | RequestException => Ok (apology sign)
  | JsonBody data =>
      match preview data with
      | Raise e => Raise e
      | Ok _ => Ok (get_description data "Could not fetch horoscope today.")
      end
  | OtherException e => Raise e
  end.

Definition regenerate_text (text sign : string) : string :=
  "Hello " ++ Py.capitalize sign ++ ", your horoscope for today: " ++ text
  ++ " Have a wonderful day!".

Definition text_to_speech_google (w : World) (text_input output_filepath : string)
    (st : State) : bool * State :=
  if synthesize_speech w text_input
  then (true, write output_filepath st)
  else (false, st).

(** Line 264: the test that makes the driver skip a sign. *)
Definition fetch_failed (raw_horoscope : string) : bool :=
  negb (Py.truthy raw_horoscope)
  || Py.contains "Could not fetch" raw_horoscope
  || Py.contains "couldn't retrieve" raw_horoscope.

(* ------------------------------------------------------------------ *)
(** ** The topic loop of main (lines 257-318) *)

Record LoopVars := mkVars {
  all_video_segments : list VideoClip;
  youtube_description_parts : list string;
  current_timestamp_seconds : Q
}.

(** Lines 257-259: both lists start empty (they are appended to and tested
    for emptiness below), the clock starts at 0. *)
Definition init_vars : LoopVars := mkVars [] [] 0.

(** Lines 313-315: the chapter line written for a segment starting at [t]. *)
Definition chapter_line (t : Q) (sign : string) : string :=
  let minutes := Py.int (Py.floordiv t 60) in
  let seconds := Py.int (Py.mod_ t 60) in
  Py.format_02d minutes ++ ":" ++ Py.format_02d seconds ++ " " ++ Py.capitalize sign.

(** Lines 311-316: a segment joins the timeline.  The clock is a machine
    number, and so is the duration added to it. *)
Definition add_segment (sign : string) (video_segment : VideoClip) (v : LoopVars) : LoopVars :=
  mkVars (all_video_segments v ++ [video_segment])
         (youtube_description_parts v ++ [chapter_line (current_timestamp_seconds v) sign])
         (Py.float_add (current_timestamp_seconds v) (duration video_segment)).

Definition audio_file (sign : string) : string := join OUTPUT_DIR (sign ++ "_horoscope.mp3").
Definition image_file (sign : string) : string :=
  join IMAGE_DIR (Py.map_string Py.lower sign ++ ".jpg").
Definition generic_image_path : string := join IMAGE_DIR "default.jpg".

(** Lines 283-297: the image to use, or [None] when the sign is skipped. *)
Definition choose_image (sign : string) (st : State) : option string :=
  if exists_ (image_file sign) st then Some (image_file sign)
  else if exists_ generic_image_path st then Some generic_image_path
  else None.

(** One turn of the loop.  [continue] is the unchanged [LoopVars]; an
    exception nothing catches ends the loop and the run. *)
Definition process_sign (w : World) (sign : string) (v : LoopVars) (st : State)
    : Result LoopVars * State :=
  let st := log (Fetch sign) st in
  match fetch_horoscope w sign with
  | Raise e => (Raise e, st)
  | Ok raw_horoscope =>
      if fetch_failed raw_horoscope then (Ok v, log (Skipping sign FetchError) st)
      else
        let regenerated_horoscope := regenerate_text raw_horoscope sign in
        let audio_filepath := audio_file sign in
        let (spoken, st) := text_to_speech_google w regenerated_horoscope audio_filepath st in
        if negb spoken then (Ok v, log (Skipping sign TTSError) st)
        else
          match choose_image sign st with
          | None => (Ok v, log (Skipping sign ImageMissing) st)
          | Some image_filepath =>
              match AudioFileClip (media w) audio_filepath with
              | None => (Raise IOError, st)
              | Some temp_audio_duration =>
                  let segment_duration := Py.float_add temp_audio_duration 1 in
                  match create_segment_video (media w) sign regenerated_horoscope
                          image_filepath audio_filepath segment_duration with
                  | Some video_segment =>
                      (Ok (add_segment sign video_segment v), log (SegmentAdded sign) st)
                  | None => (Ok v, log (SegmentFailed sign) st)
                  end
              end
          end
  end.

Fixpoint topic_loop (w : World) (signs : list string) (v : LoopVars) (st : State)
    : Result LoopVars * State :=
  match signs with
  | [] => (Ok v, st)
  | sign :: rest =>
      match process_sign w sign v st with
      | (Ok v', st') => topic_loop w rest v' st'
      | (Raise e, st') => (Raise e, st')
      end
  end.

(* ------------------------------------------------------------------ *)
(** ** get_youtube_service (lines 164-213) *)

(** Line 213: [build] is outside any [try]. *)
Definition build_service (w : World) (c : Credentials) (st : State)
    : Result (option Credentials) * State :=
  match build w with
  | Some e => (Raise e, st)
  | None => (Ok (Some c), st)
  end.

(** The service object is represented by the credentials it was built on.
    Reading the token file (lines 170-171), saving it (lines 202-203) and
    [build] (line 213) are outside any [try]: what they raise leaves the
    function.  The file is opened, so is on disk, before [pickle.dump] can
    raise. *)
Definition get_youtube_service (w : World) (st : State)
    : Result (option Credentials) * State :=
  let st := log GetService st in
  let loaded :=
    if exists_ TOKEN_PICKLE_FILE_TEMP st
    then match pickle_load w with
         | Ok c => Ok (Some c)
         | Raise e => Raise e
         end
    else Ok None in
  match loaded with
  | Raise e => (Raise e, st)
  | Ok creds =>
      let usable := match creds with Some c => valid c | None => false end in
      if usable
      then match creds with
           | Some c => build_service w c st
           | None => (Ok None, st)
           end
      else
        (* lines 175-180 *)
        let creds :=
          match creds with
          | Some c =>
              if expired c && refresh_token c
              then if refresh w then Some (mkCreds true false true) else None
              else Some c
          | None => None
          end in
        (* lines 181-199: [None] is one of the two [return None] *)
        let creds :=
          match creds with
          | Some c => Some c
          | None =>
              if negb (exists_ CLIENT_SECRETS_FILE_TEMP st) then None
              else run_console w
          end in
        match creds with
        | None => (Ok None, st)
        | Some c =>
            let st := write TOKEN_PICKLE_FILE_TEMP st in           (* lines 201-203 *)
            match pickle_dump w with
            | Some e => (Raise e, st)
            | None => build_service w c st
            end
        end
  end.

(* ------------------------------------------------------------------ *)
(** ** upload_video_to_youtube (lines 216-246) *)

(** [status.progress()], a division of machine numbers, and the percentage
    line 241 prints. *)
Definition progress (s : Progress) : Q :=
  match total_size s with
  | Some t => if (t =? 0)%Z then 0
              else Py.float_div (inject_Z (resumable_progress s)) (inject_Z t)
  | None => 0
  end.

Definition percent (s : Progress) : Z := Py.int (Py.float_mul (progress s) 100).

Inductive LoopEnd :=
| GotResponse (r : Response)
| ChunkFailed
| Looping.      (* no response within the fuel *)

(** Lines 238-241: [while response is None].  [k] counts the calls of
    [next_chunk] made so far; [fuel] bounds the turns looked at. *)
Fixpoint chunk_loop (fuel : nat) (req : nat -> ChunkResult) (k : nat) (st : State)
    : LoopEnd * State :=
  match fuel with
  | O => (Looping, st)
  | S fuel' =>
      let st := log (NextChunk k) st in
      match req k with
      | ChunkRaises => (ChunkFailed, st)
      | Chunk status response =>
          let st := match status with
                    | Some s => log (UploadedPercent (percent s)) st
                    | None => st
                    end in
          match response with
          | None => chunk_loop fuel' req (S k) st
          | Some r => (GotResponse r, st)
          end
      end
  end.

Inductive UploadResult :=
| UploadReturned (video_id : option string)
| UploadRunning.

Definition upload_video_to_youtube (fuel : nat) (w : World)
    (file_path title description : string) (st : State) : UploadResult * State :=
  let st := log (Upload file_path title description) st in
  if negb (exists_ file_path st)
  then (UploadReturned None, log UploadError st)        (* MediaFileUpload raises *)
  else
    match chunk_loop fuel (next_chunk w) 0 st with
    | (Looping, st) => (UploadRunning, st)
    | (ChunkFailed, st) => (UploadReturned None, log UploadError st)
    | (GotResponse r, st) =>
        match resp_id r with
        | Some id => (UploadReturned (Some id), log (UploadedId id) st)
        | None => (UploadReturned None, log UploadError st)     (* response['id'] *)
        end
    end.

(* ------------------------------------------------------------------ *)
(** ** main (lines 249-379) *)

(** [concatenate_videoclips(..., method="compose")]: the clips one after the
    other; the result lasts as long as all of them together. *)
Definition sum_durations (clips : list VideoClip) : Q :=
  fold_left (fun t c => Py.float_add t (duration c)) clips 0.

Definition concatenate_videoclips (clips : list VideoClip) : VideoClip :=
  mkClip (flat_map layers clips) None (sum_durations clips).

Definition final_video_filepath : string := join OUTPUT_DIR "daily_horoscope_compilation.mp4".

Definition newline : string := String (ascii_of_nat 10) EmptyString.

(** Lines 371-377. *)
Definition cleanup_credentials (w : World) (st : State) : State :=
  let st :=
    if Py.truthy_opt (GOOGLE_CREDENTIALS_JSON_CONTENT w) && exists_ SERVICE_ACCOUNT_FILE_TEMP st
    then remove SERVICE_ACCOUNT_FILE_TEMP st else st in
  let st :=
    if Py.truthy_opt (YOUTUBE_CLIENT_SECRET_JSON_CONTENT w) && exists_ CLIENT_SECRETS_FILE_TEMP st
    then remove CLIENT_SECRETS_FILE_TEMP st else st in
  if Py.truthy_opt (YOUTUBE_TOKEN_PICKLE_BASE64 w) && exists_ TOKEN_PICKLE_FILE_TEMP st
  then remove TOKEN_PICKLE_FILE_TEMP st else st.

(** Lines 357-379: [None] when the upload loop is still turning. *)
Definition upload_stage (fuel : nat) (w : World) (v : LoopVars) (st : State)
    : Outcome * State :=
  match get_youtube_service w st with
  | (Raise e, st) => (Raised e, st)
  | (Ok youtube_service, st) =>
      let upload :=
        match youtube_service with
        | Some _ =>
            if exists_ final_video_filepath st then
              let video_title := "Daily Horoscope Compilation - " ++ today_date w in
              let video_description := String.concat newline (youtube_description_parts v) in
              upload_video_to_youtube fuel w final_video_filepath video_title
                                      video_description st
            else (UploadReturned None, st)
        | None => (UploadReturned None, st)
        end in
      match upload with
      | (UploadRunning, st) => (Running, st)
      | (UploadReturned _, st) =>
          (Returned EndOfMain, log ProcessFinished (cleanup_credentials w st))
      end
  end.

Definition temp_audiofile : string := "temp-audio.m4a".

(** Lines 335-342 on the disk.  The compilation has an audio track when one
    of its segments has one; moviepy then writes it to [temp_audiofile],
    encodes the video and, [remove_temp] being set, deletes the temporary
    file.  When the encoding raises, the world says which files it left. *)
Definition write_final_video (w : World) (clips : list VideoClip) (st : State)
    : bool * State :=
  if write_videofile w then
    let make_audio :=
      existsb (fun c => match audio c with Some _ => true | None => false end) clips in
    let st := if make_audio then write temp_audiofile st else st in
    let st := write final_video_filepath st in
    (true, if make_audio then remove temp_audiofile st else st)
  else (false, fold_left (fun s p => write p s) (failed_write_leaves w) st).

(** [main] from line 253 on, in the world the set-up leaves. *)
Definition run (fuel : nat) (w : World) (st : State) : Outcome * State :=
  match topic_loop w ZODIAC_SIGNS init_vars st with
  | (Raise e, st) => (Raised e, st)
  | (Ok v, st) =>
      match all_video_segments v with
      | [] => (Returned NoSegments, log NoSegmentsCreated st)
      | _ :: _ =>
          let final_video_clip := concatenate_videoclips (all_video_segments v) in
          let st := log (WriteVideo final_video_filepath (duration final_video_clip)) st in
          match write_final_video w (all_video_segments v) st with
          | (true, st) => upload_stage fuel w v st
          | (false, st) => (Returned WriteFailed, st)
          end
      end
  end.

Definition main (fuel : nat) (w : World) : Outcome * State :=
  run fuel (environ_after_setup w) (setup_credentials w (mkState (disk w) [])).

(** The topic loop of a run, and the timeline it builds: the variables the
    loop ends with. *)
Definition run_loop (w : World) : Result LoopVars * State :=
  topic_loop (environ_after_setup w) ZODIAC_SIGNS init_vars
    (setup_credentials w (mkState (disk w) [])).

Definition timeline (w : World) : Result LoopVars := fst (run_loop w).

(* ------------------------------------------------------------------ *)
(** ** Vocabulary for the statements *)

(** Where segment [i] of a timeline starts: the durations of the segments
    before it, added up in timeline order. *)
Definition offset_before (i : nat) (segs : list VideoClip) : Q :=
  sum_durations (firstn i segs).

(** [subseq small big]: [small] is [big] with some elements left out, the
    others in their order. *)
Inductive subseq {A : Type} : list A -> list A -> Prop :=
| subseq_nil : subseq [] []
| subseq_skip (x : A) (small big : list A) : subseq small big -> subseq small (x :: big)
| subseq_take (x : A) (small big : list A) : subseq small big -> subseq (x :: small) (x :: big).

(** The segments a run adds, each with the sign it was made for. *)
Abbreviation Row := (string * VideoClip)%type (only parsing).

Definition add_rows (rows : list Row) (v : LoopVars) : LoopVars :=
  fold_left (fun v r => add_segment (fst r) (snd r) v) rows v.

(** The chapter lines of rows that start at [t]. *)
Fixpoint labels (t : Q) (rows : list Row) : list string :=
  match rows with
  | [] => []
  | r :: rest => chapter_line t (fst r) :: labels (Py.float_add t (duration (snd r))) rest
  end.

(** [seg] is what the driver builds for [sign] in world [w]. *)
Definition built_by (w : World) (r : Row) : Prop :=
  exists raw image_path d,
    AudioFileClip (media w) (audio_file (fst r)) = Some d
    /\ create_segment_video (media w) (fst r) (regenerate_text raw (fst r)) image_path
         (audio_file (fst r)) (Py.float_add d 1) = Some (snd r).

(** Events of the render/write step and of the upload step. *)
Definition renders_or_uploads (e : Event) : bool :=
  match e with
  | WriteVideo _ _ | GetService | Upload _ _ _ | NextChunk _
  | UploadedPercent _ | UploadedId _ | UploadError => true
  | _ => false
  end.

(** A state in whose trace nothing was rendered or uploaded. *)
Definition quiet (st : State) : Prop :=
  Forall (fun e => renders_or_uploads e = false) (trace st).

Definition calls (tr : list Event) : nat :=
  List.length (filter (fun e => match e with NextChunk _ => true | _ => false end) tr).

Definition completions (tr : list Event) : nat :=
  List.length (filter (fun e => match e with UploadedId _ => true | _ => false end) tr).

(** An upload request whose first [n] calls bring no response (with or
    without a progress report) and whose next call completes with response
    [r]. *)
Definition progress_then_complete (req : nat -> ChunkResult) (n : nat) (r : Response) : Prop :=
  (forall k, (k < n)%nat -> exists s, req k = Chunk s None)
  /\ exists s, req n = Chunk s (Some r).

(** The signs a trace asked the horoscope service about, in order, and the
    signs it settled (skipped, failed or added), in order. *)
Definition fetched (tr : list Event) : list string :=
  flat_map (fun e => match e with Fetch s => [s] | _ => [] end) tr.

Definition verdicts (tr : list Event) : list string :=
  flat_map (fun e => match e with
                     | Skipping s _ | SegmentFailed s | SegmentAdded s => [s]
                     | _ => []
                     end) tr.

(** Events of the upload proper, and events that reach YouTube at all. *)
Definition is_upload_event (e : Event) : bool :=
  match e with
  | Upload _ _ _ | NextChunk _ | UploadedPercent _ | UploadedId _ | UploadError => true
  | _ => false
  end.

Definition contacts_youtube (e : Event) : bool :=
  match e with
  | GetService => true
  | _ => is_upload_event e
  end.

(** The signs a trace added a segment for, in order, and the trace of the
    topic loop of a run. *)
Definition added (tr : list Event) : list string :=
  flat_map (fun e => match e with SegmentAdded s => [s] | _ => [] end) tr.

Definition loop_trace (w : World) : list Event := trace (snd (run_loop w)).

(** A machine number that is not negative: at most 53 bits, scaled by a
    power of two. *)
Definition is_double (t : Q) : Prop :=
  exists m e, t == inject_Z m * 2 ^ e /\ (0 <= m <= 2 ^ 53)%Z /\ (-1074 <= e)%Z.

(** The audio durations of a world are durations. *)
Definition durations_nonneg (w : World) : Prop :=
  forall path d, AudioFileClip (media w) path = Some d -> 0 <= d.

(* ------------------------------------------------------------------ *)
(** ** Worlds used as concrete inputs *)

Module Examples.

Definition two_chunks (k : nat) : ChunkResult :=
  match k with
  | O => Chunk (Some (mkProgress 0 (Some 100%Z))) None
  | S O => Chunk (Some (mkProgress 50 (Some 100%Z))) None
  | _ => Chunk None (Some (mkResponse (Some "dQw4w9WgXcQ")))
  end.

(** Aries speaks for 12.3 s, everybody else for 8 s. *)
Definition durations (path : string) : option Q :=
  if String.eqb path "output/aries_horoscope.mp3" then Some (123 # 10) else Some 8.

Definition studio : Media := mkMedia durations (fun _ => true) (fun _ => true).

(** Same files, but no text can be rendered. *)
Definition no_fonts : Media := mkMedia durations (fun _ => true) (fun _ => false).

(** Leo's request times out, virgo's description is empty, the speech service
    refuses taurus, everybody else gets through. *)
Definition answers (s : string) : HttpOutcome :=
  if String.eqb s "leo" then RequestException
  else if String.eqb s "virgo" then JsonBody (Some "")
  else JsonBody (Some ("The stars favour " ++ s ++ ".")).

Definition voice (text : string) : bool := negb (Py.contains "Taurus" text).

(** Every service answers.  The client secrets come from their variable; the
    token file was left on disk by an earlier run and holds valid
    credentials; the first variable is not set, so line 49 is not run. *)
Definition sunny : World :=
  mkWorld None (Some "{}") None (fun _ => true)
    ["images/default.jpg"; "images/aries.jpg"; "output/token.pickle"]
    answers voice
    studio true (Ok (mkCreds true false true)) true None "November 03, 2026"
    two_chunks None None [].

(** The horoscope service cannot be reached at all.  The client secrets and
    the token come from their variables; the token text decodes, to bytes
    that are no pickle. *)
Definition offline : World :=
  mkWorld None (Some "{}") (Some "gASVBQAAAAAAAAA=") (fun _ => true)
    ["images/default.jpg"]
    (fun _ => RequestException) (fun _ => true)
    studio true (Raise PickleError) true None "November 03, 2026"
    two_chunks None None [].

(** The services of [sunny] and the credentials of [offline], but the
    encoder fails once the audio track is written. *)
Definition disk_full : World :=
  mkWorld None (Some "{}") (Some "gASVBQAAAAAAAAA=") (fun _ => true)
    ["images/default.jpg"; "images/aries.jpg"]
    answers voice
    studio false (Raise PickleError) true None "November 03, 2026"
    two_chunks None None [temp_audiofile].

(** As [sunny], but with the first variable set: line 49 is run. *)
Definition crashing : World :=
  mkWorld (Some "{}") (Some "{}") None (fun _ => true)
    ["images/default.jpg"; "images/aries.jpg"; "output/token.pickle"]
    answers voice
    studio true (Ok (mkCreds true false true)) true None "November 03, 2026"
    two_chunks None None [].

(** The variables the topic loop of a run in [sunny] ends with. *)
Definition sunny_vars : LoopVars :=
  Eval vm_compute in
    match timeline sunny with Ok v => v | Raise _ => init_vars end.

(** Twelve signs, ten minutes of speech each. *)
Definition marathon : World :=
  mkWorld None None None (fun _ => true)
    ["images/default.jpg"]
    (fun s => JsonBody (Some ("A long day for " ++ s ++ ".")))
    (fun _ => true)
    (mkMedia (fun _ => Some 600) (fun _ => true) (fun _ => true))
    true (Ok (mkCreds true false true)) true None "November 03, 2026"
    two_chunks None None [].

Definition marathon_vars : LoopVars :=
  Eval vm_compute in
    match timeline marathon with Ok v => v | Raise _ => init_vars end.

(** Whichever signs [keep] leaves out cannot be fetched; the others go
    through, with the default image. *)
Definition choosy (keep : string -> bool) : World :=
  mkWorld None None None (fun _ => true)
    ["images/default.jpg"]
    (fun s => if keep s then JsonBody (Some "A calm day.") else RequestException)
    (fun _ => true)
    studio true (Ok (mkCreds true false true)) true None "November 03, 2026"
    two_chunks None None [].

(** [sunny] with another upload request. *)
Definition with_upload (req : nat -> ChunkResult) : World :=
  mkWorld None (Some "{}") None (fun _ => true)
    ["images/default.jpg"; "images/aries.jpg"; "output/token.pickle"]
    answers voice
    studio true (Ok (mkCreds true false true)) true None "November 03, 2026"
    req None None [].

(** One progress report, then the connection breaks. *)
Definition broken_pipe (k : nat) : ChunkResult :=
  match k with
  | O => Chunk (Some (mkProgress 10 (Some 100%Z))) None
  | _ => ChunkRaises
  end.

(** One progress report, then a response without an ['id']. *)
Definition anonymous_response (k : nat) : ChunkResult :=
  match k with
  | O => Chunk (Some (mkProgress 10 (Some 100%Z))) None
  | _ => Chunk None (Some (mkResponse None))
  end.

(** Progress reports for ever. *)
Definition stalled (k : nat) : ChunkResult :=
  Chunk (Some (mkProgress 0 (Some 100%Z))) None.

(** As [sunny], but the answer for gemini has no description. *)
Definition malformed : World :=
  mkWorld None (Some "{}") None (fun _ => true)
    ["images/default.jpg"; "images/aries.jpg"; "output/token.pickle"]
    (fun s => if String.eqb s "gemini" then JsonBody None else answers s)
    voice
    studio true (Ok (mkCreds true false true)) true None "November 03, 2026"
    two_chunks None None [].

(** As [sunny], but no variable is set and no credential file is on disk. *)
Definition no_credentials : World :=
  mkWorld None None None (fun _ => true)
    ["images/default.jpg"; "images/aries.jpg"]
    answers voice
    studio true (Ok (mkCreds true false true)) true None "November 03, 2026"
    two_chunks None None [].

(** A local run: no variable is set, a token file from an earlier run is on
    disk, and the credentials in it are neither valid nor refreshable. *)
Definition stale_token : World :=
  mkWorld None None None (fun _ => true)
    ["images/default.jpg"; "output/token.pickle"]
    answers voice
    studio true (Ok (mkCreds false false false)) true None "November 03, 2026"
    two_chunks None None [].

(** A tenth of a second, as a machine number. *)
Definition tenth : Q := 3602879701896397 # 36028797018963968.

(** Twelve signs, a tenth of a second of speech each. *)
Definition tenths : World :=
  mkWorld None None None (fun _ => true)
    ["images/default.jpg"]
    (fun s => JsonBody (Some ("A short day for " ++ s ++ ".")))
    (fun _ => true)
    (mkMedia (fun _ => Some tenth) (fun _ => true) (fun _ => true))
    true (Ok (mkCreds true false true)) true None "November 03, 2026"
    two_chunks None None [].

Definition tenths_vars : LoopVars :=
  Eval vm_compute in
    match timeline tenths with Ok v => v | Raise _ => init_vars end.

End Examples.

(* ------------------------------------------------------------------ *)
(** ** Facts about the Python primitives *)

Lemma prefix_app (a b : string) : String.prefix a (a ++ b) = true.
Proof.
  induction a as [|c a IH]; simpl.
  - destruct b; reflexivity.
  - destruct (ascii_dec c c) as [_|ne]; [exact IH | congruence].
Qed.

Lemma contains_prefix (needle hay : string) :
  String.prefix needle hay = true -> Py.contains needle hay = true.
Proof. destruct hay; simpl; intros ->; reflexivity. Qed.

Lemma contains_here (needle rest : string) : Py.contains needle (needle ++ rest) = true.
Proof. apply contains_prefix, prefix_app. Qed.

Lemma contains_later (needle pre hay : string) :
  Py.contains needle hay = true -> Py.contains needle (pre ++ hay) = true.
Proof.
  intros H. induction pre as [|c pre IH]; simpl; [exact H|].
  rewrite IH.
  match goal with |- (if ?b then _ else _) = _ => destruct b; reflexivity end.
Qed.

Lemma Qfloor_shift (x : Q) (z : Z) : Qfloor (x + inject_Z z) = (Qfloor x + z)%Z.
Proof.
  destruct x as [n d]. unfold Qfloor, Qplus, inject_Z. simpl.
  rewrite Pos.mul_1_r, Z.mul_1_r. apply Z.div_add. discriminate.
Qed.

Lemma Qfloor_div_60 (x : Q) : Qfloor (x / 60) = (Qfloor x / 60)%Z.
Proof.
  destruct x as [n d]. unfold Qfloor, Qdiv, Qmult, Qinv. simpl.
  rewrite Z.mul_1_r, Pos2Z.inj_mul.
  rewrite Z.div_div by lia. reflexivity.
Qed.

Lemma int_of_Z (z : Z) : Py.int (inject_Z z) = z.
Proof.
  unfold Py.int. destruct (Qle_bool 0 (inject_Z z)).
  - apply Qfloor_Z.
  - apply Qceiling_Z.
Qed.

Lemma int_nonneg (x : Q) : 0 <= x -> Py.int x = Qfloor x.
Proof.
  intros H. unfold Py.int. apply Qle_bool_iff in H. rewrite H. reflexivity.
Qed.

Lemma mod_60_range (x : Q) : 0 <= Py.mod_ x 60 /\ Py.mod_ x 60 < 60.
Proof.
  unfold Py.mod_.
  pose proof (Qfloor_le (x / 60)) as Hlo.
  pose proof (Qlt_floor (x / 60)) as Hhi.
  assert (E : x == 60 * (x / 60)) by (field).
  set (k := inject_Z (Qfloor (x / 60))) in *.
  assert (Hk : inject_Z (Qfloor (x / 60) + 1) == k + 1)
    by (unfold k; rewrite inject_Z_plus; reflexivity).
  rewrite Hk in Hhi.
  split; lra.
Qed.

Lemma floordiv_60 (x : Q) : Py.int (Py.floordiv x 60) = (Qfloor x / 60)%Z.
Proof. unfold Py.floordiv. rewrite int_of_Z. apply Qfloor_div_60. Qed.

Lemma mod_60 (x : Q) : Py.int (Py.mod_ x 60) = (Qfloor x mod 60)%Z.
Proof.
  rewrite int_nonneg by apply mod_60_range.
  unfold Py.mod_.
  assert (E : x - 60 * inject_Z (Qfloor (x / 60))
              == x + inject_Z (- (60 * Qfloor (x / 60)))).
  { rewrite inject_Z_opp, inject_Z_mult. unfold Qminus. reflexivity. }
  rewrite (Qfloor_comp _ _ E), Qfloor_shift, Qfloor_div_60.
  rewrite Z.mod_eq by lia. lia.
Qed.

Lemma format_02d_two_digits (z : Z) :
  (0 <= z < 100)%Z -> String.length (Py.format_02d z) = 2%nat.
Proof.
  intros Hz.
  assert (All : forallb (fun n => String.length (Py.format_02d (Z.of_nat n)) =? 2)%nat
                        (seq 0 100) = true) by (vm_compute; reflexivity).
  rewrite forallb_forall in All.
  specialize (All (Z.to_nat z)).
  rewrite Z2Nat.id in All by lia.
  apply Nat.eqb_eq, All, in_seq. lia.
Qed.

Lemma digits_fuel_grows (fuel : nat) :
  forall n acc, (String.length acc <= String.length (Py.digits_fuel fuel n acc))%nat.
Proof.
  induction fuel as [|f IH]; intros n acc; simpl; [lia|].
  destruct (n <? 10)%nat; simpl; [lia|].
  specialize (IH (n / 10)%nat (String (Py.digit (n mod 10)) acc)). simpl in IH. lia.
Qed.

(** A number from 100 on is written with three characters or more. *)
Lemma digits_fuel_three (f n : nat) (acc : string) :
  (100 <= n)%nat ->
  (3 + String.length acc <= String.length (Py.digits_fuel (S (S (S f))) n acc))%nat.
Proof.
  intros H. cbn [Py.digits_fuel].
  assert (A : (n <? 10)%nat = false) by (apply Nat.ltb_ge; lia).
  assert (B : (n / 10 <? 10)%nat = false).
  { apply Nat.ltb_ge. apply Nat.div_le_lower_bound; lia. }
  rewrite A, B.
  match goal with
  | |- context [if ?c then ?a else Py.digits_fuel ?f ?m ?a] =>
      destruct c; [cbn [String.length]; lia
                  | pose proof (digits_fuel_grows f m a) as G; cbn [String.length] in G; lia]
  end.
Qed.

Lemma str_nat_three_digits (n : nat) :
  (100 <= n)%nat -> (3 <= String.length (Py.str_nat n))%nat.
Proof.
  intros H. unfold Py.str_nat.
  destruct n as [|[|n]]; [lia | lia|].
  pose proof (digits_fuel_three n (S (S n)) EmptyString H) as G.
  cbn [String.length] in G. lia.
Qed.

(** [{z:02d}] pads to two characters and cuts nothing: a number that is
    not negative is written with two characters exactly when it is below
    100, and with more otherwise. *)
Lemma format_02d_length (z : Z) :
  (0 <= z)%Z ->
  (2 <= String.length (Py.format_02d z))%nat
  /\ (String.length (Py.format_02d z) = 2%nat <-> (z < 100)%Z).
Proof.
  intros Hz. destruct (Z_lt_le_dec z 100) as [L|G].
  - rewrite (format_02d_two_digits z) by lia. split; [lia|]. split; intros _; [exact L|reflexivity].
  - assert (T : (3 <= String.length (Py.format_02d z))%nat).
    { unfold Py.format_02d.
      assert (A : (z <? 0)%Z = false) by (apply Z.ltb_ge; lia).
      assert (B : (z <? 10)%Z = false) by (apply Z.ltb_ge; lia).
      rewrite A, B. apply str_nat_three_digits. lia. }
    split; [lia|]. split; intros H; lia.
Qed.

(* ------------------------------------------------------------------ *)
(** ** Facts about machine numbers *)

Lemma pow2_pos (e : Z) : 0 < 2 ^ e.
Proof. apply Qpower_0_lt. reflexivity. Qed.

Lemma pow2_add (a b : Z) : 2 ^ (a + b) == 2 ^ a * 2 ^ b.
Proof. apply Qpower_plus. discriminate. Qed.

Lemma pow2_Z (n : Z) : (0 <= n)%Z -> inject_Z (2 ^ n) == 2 ^ n.
Proof. intros H. apply (Zpower_Qpower 2 n H). Qed.

Lemma pow2_le (a b : Z) : (a <= b)%Z -> 2 ^ a <= 2 ^ b.
Proof. intros H. apply Qpower_le_compat_l; [exact H | discriminate]. Qed.

Lemma pow2_le_inv (a b : Z) : 2 ^ a <= 2 ^ b -> (a <= b)%Z.
Proof. intros H. apply (Qpower_le_compat_l_inv 2); [exact H | reflexivity]. Qed.

Lemma pow2_sub (a b : Z) : 2 ^ (a - b) == 2 ^ a / 2 ^ b.
Proof.
  unfold Z.sub. rewrite pow2_add, Qpower_opp. reflexivity.
Qed.

Lemma floor_log2_spec (q : Q) :
  0 < q -> 2 ^ Py.floor_log2 q <= q /\ q < 2 ^ (Py.floor_log2 q + 1).
Proof.
  intros Hq. unfold Py.floor_log2.
  destruct q as [n d]. cbn [Qnum Qden].
  assert (Hn : (0 < n)%Z) by (unfold Qlt in Hq; simpl in Hq; lia).
  destruct (Z.log2_spec n Hn) as [N1 N2].
  destruct (Z.log2_spec (Zpos d) (Pos2Z.is_pos d)) as [D1 D2].
  set (ln := Z.log2 n) in *. set (ld := Z.log2 (Zpos d)) in *.
  assert (Ln : (0 <= ln)%Z) by apply Z.log2_nonneg.
  assert (Ld : (0 <= ld)%Z) by apply Z.log2_nonneg.
  assert (E : n # d == inject_Z n / inject_Z (Zpos d)) by apply Qmake_Qdiv.
  assert (A1 : 2 ^ ln <= inject_Z n) by (rewrite <- pow2_Z by lia; rewrite <- Zle_Qle; exact N1).
  assert (A2 : inject_Z n < 2 * 2 ^ ln).
  { rewrite <- (pow2_Z ln) by lia. change 2 with (inject_Z 2) at 1.
    rewrite <- inject_Z_mult, <- Zlt_Qlt.
    replace (2 * 2 ^ ln)%Z with (2 ^ Z.succ ln)%Z by (rewrite Z.pow_succ_r by lia; reflexivity).
    exact N2. }
  assert (B1 : 2 ^ ld <= inject_Z (Zpos d)) by (rewrite <- pow2_Z by lia; rewrite <- Zle_Qle; exact D1).
  assert (B2 : inject_Z (Zpos d) < 2 * 2 ^ ld).
  { rewrite <- (pow2_Z ld) by lia. change 2 with (inject_Z 2) at 1.
    rewrite <- inject_Z_mult, <- Zlt_Qlt.
    replace (2 * 2 ^ ld)%Z with (2 ^ Z.succ ld)%Z by (rewrite Z.pow_succ_r by lia; reflexivity).
    exact D2. }
  pose proof (pow2_pos ln) as Pn. pose proof (pow2_pos ld) as Pd.
  set (P := 2 ^ ln) in *. set (R := 2 ^ ld) in *.
  set (A := inject_Z n) in *. set (B := inject_Z (Zpos d)) in *.
  assert (Bp : 0 < B) by lra.
  assert (K : 2 ^ (ln - ld) == P / R) by apply pow2_sub.
  assert (K1 : 2 ^ (ln - ld + 1) == 2 * P / R).
  { rewrite pow2_add, K. change (2 ^ 1) with 2. field. lra. }
  assert (K0 : 2 ^ (ln - ld - 1) == P / (2 * R)).
  { unfold Z.sub at 1. rewrite pow2_add, K. change (2 ^ (- (1))) with (/ 2). field. lra. }
  destruct (Qle_bool (2 ^ (ln - ld)) (n # d)) eqn:T.
  - apply Qle_bool_iff in T. split; [exact T|].
    rewrite K1, E. apply Qlt_shift_div_r; [exact Bp|].
    assert (X : 2 * P / R * B == (2 * P * B) / R) by (field; lra).
    rewrite X. apply Qlt_shift_div_l; [exact Pd|]. nra.
  - assert (T' : n # d < 2 ^ (ln - ld)).
    { apply Qnot_le_lt. intros H. apply Qle_bool_iff in H. congruence. }
    split.
    + rewrite K0, E. apply Qle_shift_div_l; [exact Bp|].
      assert (X : P / (2 * R) * B == (P * B) / (2 * R)) by (field; lra).
      rewrite X. apply Qle_shift_div_r; [lra|]. nra.
    + replace (ln - ld - 1 + 1)%Z with (ln - ld)%Z by lia. exact T'.
Qed.

Lemma round_half_even_bounds (x : Q) :
  (Qfloor x <= Py.round_half_even x <= Qfloor x + 1)%Z.
Proof.
  unfold Py.round_half_even.
  destruct (Qle_bool (x - inject_Z (Qfloor x)) (1 # 2));
    [destruct (Qle_bool (1 # 2) (x - inject_Z (Qfloor x)));
       [destruct (Z.even (Qfloor x))|]|]; lia.
Qed.

Lemma round_half_even_Z (x : Q) (z : Z) : x == inject_Z z -> Py.round_half_even x = z.
Proof.
  intros E. unfold Py.round_half_even.
  assert (F : Qfloor x = z) by (rewrite (Qfloor_comp _ _ E); apply Qfloor_Z).
  rewrite F.
  assert (R : x - inject_Z z == 0) by (rewrite E; ring).
  assert (T1 : Qle_bool (x - inject_Z z) (1 # 2) = true)
    by (apply Qle_bool_iff; rewrite R; discriminate).
  assert (T2 : Qle_bool (1 # 2) (x - inject_Z z) = false).
  { destruct (Qle_bool (1 # 2) (x - inject_Z z)) eqn:T; [|reflexivity].
    apply Qle_bool_iff in T. rewrite R in T. exfalso. apply T. reflexivity. }
  rewrite T1, T2. reflexivity.
Qed.

Lemma double_pos_value (q : Q) :
  Py.double_pos q == inject_Z (Py.round_half_even (q / 2 ^ Py.exponent q)) * 2 ^ Py.exponent q.
Proof. unfold Py.double_pos. apply Qred_correct. Qed.

Lemma scaled_below (y : Q) : 0 < y -> y / 2 ^ Py.exponent y < inject_Z (2 ^ 53).
Proof.
  intros Hy. destruct (floor_log2_spec y Hy) as [_ U].
  apply Qlt_shift_div_r; [apply pow2_pos|].
  rewrite pow2_Z by lia. rewrite <- pow2_add.
  eapply Qlt_le_trans; [exact U|]. apply pow2_le. unfold Py.exponent. lia.
Qed.

Lemma double_pos_is_double (y : Q) : 0 < y -> is_double (Py.double_pos y).
Proof.
  intros Hy. exists (Py.round_half_even (y / 2 ^ Py.exponent y)), (Py.exponent y).
  split; [apply double_pos_value|]. split; [|unfold Py.exponent; lia].
  pose proof (round_half_even_bounds (y / 2 ^ Py.exponent y)) as [B1 B2].
  assert (P : 0 < y / 2 ^ Py.exponent y).
  { apply Qlt_shift_div_l; [apply pow2_pos|]. rewrite Qmult_0_l. exact Hy. }
  assert (F0 : (0 <= Qfloor (y / 2 ^ Py.exponent y))%Z).
  { change 0%Z with (Qfloor 0). apply Qfloor_resp_le. apply Qlt_le_weak, P. }
  assert (F1 : (Qfloor (y / 2 ^ Py.exponent y) < 2 ^ 53)%Z).
  { rewrite Zlt_Qlt. eapply Qle_lt_trans; [apply Qfloor_le | apply scaled_below, Hy]. }
  lia.
Qed.

Lemma double_pos_nonneg (y : Q) : 0 < y -> 0 <= Py.double_pos y.
Proof.
  intros Hy. destruct (double_pos_is_double y Hy) as [m [e [E [[M _] _]]]].
  rewrite E. apply Qmult_le_0_compat.
  - change 0 with (inject_Z 0). rewrite <- Zle_Qle. exact M.
  - apply Qlt_le_weak, pow2_pos.
Qed.

(** A significand at a higher Py.exponent is a whole number at a lower one. *)
Lemma multiple_of_pow2 (m et e : Z) :
  (e <= et)%Z -> inject_Z m * 2 ^ et == inject_Z (m * 2 ^ (et - e)) * 2 ^ e.
Proof.
  intros H. rewrite inject_Z_mult, pow2_Z by lia.
  rewrite <- Qmult_assoc, <- pow2_add.
  replace (et - e + e)%Z with et by lia. reflexivity.
Qed.

Lemma double_pos_ge (t y : Q) : is_double t -> 0 < y -> t <= y -> t <= Py.double_pos y.
Proof.
  intros [m [et [E [[M0 M1] Et]]]] Hy Hty.
  rewrite double_pos_value. set (e := Py.exponent y).
  pose proof (round_half_even_bounds (y / 2 ^ e)) as [B1 _].
  pose proof (pow2_pos e) as Pe.
  destruct (Z_le_gt_dec e et) as [C|C].
  - rewrite E, (multiple_of_pow2 m et e C).
    apply Qmult_le_compat_r; [|apply Qlt_le_weak, Pe].
    rewrite <- Zle_Qle. eapply Z.le_trans; [|exact B1].
    rewrite <- (Qfloor_Z (m * 2 ^ (et - e))). apply Qfloor_resp_le.
    apply Qle_shift_div_l; [exact Pe|].
    rewrite <- (multiple_of_pow2 m et e C), <- E. exact Hty.
  - assert (Ee : e = (Py.floor_log2 y - 52)%Z) by (unfold e, Py.exponent in *; lia).
    destruct (floor_log2_spec y Hy) as [L _].
    assert (S : inject_Z (2 ^ 52) <= y / 2 ^ e).
    { apply Qle_shift_div_l; [exact Pe|]. rewrite pow2_Z by lia. rewrite <- pow2_add.
      replace (52 + e)%Z with (Py.floor_log2 y) by lia. exact L. }
    assert (F : (2 ^ 52 <= Qfloor (y / 2 ^ e))%Z).
    { rewrite <- (Qfloor_Z (2 ^ 52)). apply Qfloor_resp_le. exact S. }
    rewrite E.
    apply Qle_trans with (inject_Z (2 ^ 53) * 2 ^ et).
    { apply Qmult_le_compat_r; [|apply Qlt_le_weak, pow2_pos].
      rewrite <- Zle_Qle. exact M1. }
    apply Qle_trans with (inject_Z (2 ^ 52) * 2 ^ e).
    { rewrite !pow2_Z by lia. rewrite <- !pow2_add. apply pow2_le. lia. }
    apply Qmult_le_compat_r; [|apply Qlt_le_weak, Pe].
    rewrite <- Zle_Qle. lia.
Qed.

Lemma double_pos_idem (t : Q) : is_double t -> 0 < t -> Py.double_pos t == t.
Proof.
  intros [m [et [E [[M0 M1] Et]]]] Ht.
  rewrite double_pos_value. set (e := Py.exponent t).
  pose proof (pow2_pos e) as Pe.
  assert (Z : exists z, t == inject_Z z * 2 ^ e).
  { destruct (Z_le_gt_dec e et) as [C|C].
    - exists (m * 2 ^ (et - e))%Z. rewrite E. apply multiple_of_pow2. exact C.
    - assert (Ee : e = (Py.floor_log2 t - 52)%Z) by (unfold e, Py.exponent in *; lia).
      destruct (floor_log2_spec t Ht) as [L _].
      assert (U : t <= 2 ^ (53 + et)).
      { rewrite E. apply Qle_trans with (inject_Z (2 ^ 53) * 2 ^ et).
        - apply Qmult_le_compat_r; [|apply Qlt_le_weak, pow2_pos].
          rewrite <- Zle_Qle. exact M1.
        - rewrite pow2_Z by lia. rewrite <- pow2_add. apply Qle_refl. }
      assert (Le : (Py.floor_log2 t <= 53 + et)%Z)
        by (apply pow2_le_inv; eapply Qle_trans; [exact L | exact U]).
      assert (Ee' : e = (et + 1)%Z) by lia.
      assert (Lf : Py.floor_log2 t = (53 + et)%Z) by lia.
      assert (Mm : (2 ^ 53 <= m)%Z).
      { rewrite Zle_Qle. apply Qmult_le_r with (z := 2 ^ et); [apply pow2_pos|].
        rewrite <- E, pow2_Z by lia. rewrite <- pow2_add, <- Lf. exact L. }
      assert (m = 2 ^ 53)%Z by lia. subst m.
      exists (2 ^ 52)%Z. rewrite E, Ee', !pow2_Z by lia. rewrite <- !pow2_add.
      replace (52 + (et + 1))%Z with (53 + et)%Z by lia. reflexivity. }
  destruct Z as [z Hz].
  assert (D : t / 2 ^ e == inject_Z z).
  { rewrite Hz. field. intros H. rewrite H in Pe. discriminate Pe. }
  rewrite (round_half_even_Z _ _ D), <- Hz. reflexivity.
Qed.

Lemma is_double_nonneg (t : Q) : is_double t -> 0 <= t.
Proof.
  intros [m [e [E [[M _] _]]]]. rewrite E. apply Qmult_le_0_compat.
  - change 0 with (inject_Z 0). rewrite <- Zle_Qle. exact M.
  - apply Qlt_le_weak, pow2_pos.
Qed.

Lemma is_double_zero : is_double 0.
Proof. exists 0%Z, 0%Z. repeat split; try lia. Qed.

Lemma double_cases (t : Q) :
  0 <= t -> (t == 0 /\ Py.double t = 0) \/ (0 < t /\ Py.double t = Py.double_pos t).
Proof.
  intros H. unfold Py.double. destruct (Qle_bool t 0) eqn:T.
  - apply Qle_bool_iff in T. left.
    assert (E : Qle_bool 0 t = true) by (apply Qle_bool_iff; exact H).
    rewrite E. split; [apply Qle_antisym; assumption | reflexivity].
  - right. split; [|reflexivity].
    apply Qnot_le_lt. intros C. apply Qle_bool_iff in C. congruence.
Qed.

Lemma double_is_double (t : Q) : 0 <= t -> is_double (Py.double t).
Proof.
  intros H. destruct (double_cases t H) as [[_ ->]|[P ->]].
  - apply is_double_zero.
  - apply double_pos_is_double, P.
Qed.

Lemma double_idem (t : Q) : is_double t -> Py.double t == t.
Proof.
  intros D. destruct (double_cases t (is_double_nonneg t D)) as [[Z ->]|[P ->]].
  - symmetry. exact Z.
  - apply double_pos_idem; assumption.
Qed.

Lemma double_ge (t y : Q) : is_double t -> t <= y -> t <= Py.double y.
Proof.
  intros D H.
  assert (Hy : 0 <= y) by (eapply Qle_trans; [apply is_double_nonneg, D | exact H]).
  destruct (double_cases y Hy) as [[Z ->]|[P ->]].
  - rewrite <- Z. exact H.
  - apply double_pos_ge; assumption.
Qed.

Lemma float_add_ge (t d : Q) :
  is_double t -> 0 <= d -> t <= Py.float_add t d /\ is_double (Py.float_add t d).
Proof.
  intros D Hd. unfold Py.float_add.
  pose proof (double_idem t D) as I.
  pose proof (double_is_double t (is_double_nonneg t D)) as Du.
  pose proof (is_double_nonneg _ (double_is_double d Hd)) as Pd.
  pose proof (is_double_nonneg _ Du) as Pu.
  split.
  - rewrite <- I at 1. apply double_ge; [exact Du|]. lra.
  - apply double_is_double. lra.
Qed.

(* ------------------------------------------------------------------ *)
(** ** The segment builder *)

Section Builder.

Variable m : Media.
Variables sign_name horoscope_text image_path audio_path : string.

Lemma pad_never_truncates (d : Q) : audio_is_longer d (d + 1) = false.
Proof.
  unfold audio_is_longer, Qgtb.
  assert (H : Qle_bool d (d + 1) = true) by (apply Qle_bool_iff; lra).
  rewrite H. reflexivity.
Qed.

Lemma not_longer (d sd : Q) : d <= sd -> audio_is_longer d sd = false.
Proof.
  intros H. unfold audio_is_longer, Qgtb.
  apply Qle_bool_iff in H. rewrite H. reflexivity.
Qed.

(** The fallback of lines 153-158, when both files load. *)
Lemma fallback_value (d : Q) :
  AudioFileClip m audio_path = Some d ->
  ImageClip m image_path = true ->
  segment_fallback m image_path audio_path
  = Some (mkClip [Image image_path d] (Some (mkAudio audio_path d)) d).
Proof.
  intros Ha Hi. unfold segment_fallback. rewrite Ha. simpl. rewrite Hi. reflexivity.
Qed.

(** The try block of lines 116-148, when nothing raises and the audio is
    not longer than the planned duration. *)
Lemma body_value (d sd : Q) :
  AudioFileClip m audio_path = Some d ->
  d <= sd ->
  forall seg,
    segment_body m sign_name horoscope_text image_path audio_path sd = Some seg ->
    audio seg = Some (mkAudio audio_path d) /\ duration seg = d.
Proof.
  intros Ha Hle seg. unfold segment_body.
  destruct (TextClip m horoscope_text); simpl; [|discriminate].
  destruct (TextClip m (Py.capitalize sign_name)); simpl; [|discriminate].
  destruct (ImageClip m image_path); simpl; [|discriminate].
  rewrite Ha. simpl. rewrite (not_longer _ _ Hle).
  intros [= <-]. split; reflexivity.
Qed.

Lemma body_audio (sd : Q) (seg : VideoClip) :
  segment_body m sign_name horoscope_text image_path audio_path sd = Some seg ->
  exists a, audio seg = Some a /\ duration seg = a_duration a
            /\ a_filename a = audio_path.
Proof.
  unfold segment_body.
  destruct (TextClip m horoscope_text); simpl; [|discriminate].
  destruct (TextClip m (Py.capitalize sign_name)); simpl; [|discriminate].
  destruct (ImageClip m image_path); simpl; [|discriminate].
  destruct (AudioFileClip m audio_path) as [d|]; simpl; [|discriminate].
  intros [= <-]. simpl.
  destruct (audio_is_longer d sd); eexists; repeat split; reflexivity.
Qed.

Lemma body_needs_files (sd : Q) (seg : VideoClip) :
  segment_body m sign_name horoscope_text image_path audio_path sd = Some seg ->
  ImageClip m image_path = true /\ exists d, AudioFileClip m audio_path = Some d.
Proof.
  unfold segment_body.
  destruct (TextClip m horoscope_text); simpl; [|discriminate].
  destruct (TextClip m (Py.capitalize sign_name)); simpl; [|discriminate].
  destruct (ImageClip m image_path); simpl; [|discriminate].
  destruct (AudioFileClip m audio_path) as [d|]; simpl; [|discriminate].
  intros _. split; [reflexivity | exists d; reflexivity].
Qed.

Lemma fallback_needs_files (seg : VideoClip) :
  segment_fallback m image_path audio_path = Some seg ->
  ImageClip m image_path = true /\ exists d, AudioFileClip m audio_path = Some d.
Proof.
  unfold segment_fallback.
  destruct (AudioFileClip m audio_path) as [d|]; simpl; [|discriminate].
  destruct (ImageClip m image_path); simpl; [|discriminate].
  intros _. split; [reflexivity | exists d; reflexivity].
Qed.

(** A segment is built exactly when the image and the audio load. *)
Lemma build_succeeds_iff (sd : Q) :
  (exists seg, create_segment_video m sign_name horoscope_text image_path audio_path sd = Some seg)
  <-> ImageClip m image_path = true /\ exists d, AudioFileClip m audio_path = Some d.
Proof.
  unfold create_segment_video. split.
  - intros [seg H].
    destruct (segment_body m sign_name horoscope_text image_path audio_path sd) eqn:B.
    + eapply body_needs_files; eauto.
    + simpl in H. eapply fallback_needs_files; eauto.
  - intros [Hi [d Ha]].
    destruct (segment_body m sign_name horoscope_text image_path audio_path sd) eqn:B.
    + eexists; reflexivity.
    + simpl. rewrite (fallback_value d Ha Hi). eexists; reflexivity.
Qed.

(** Whatever path built it, a segment lasts as long as the audio it
    carries, and that audio is the whole file unless the file is longer
    than the planned duration. *)
Lemma build_duration (d sd : Q) (seg : VideoClip) :
  AudioFileClip m audio_path = Some d ->
  create_segment_video m sign_name horoscope_text image_path audio_path sd = Some seg ->
  exists a, audio seg = Some a /\ duration seg = a_duration a
            /\ a_filename a = audio_path
            /\ (d <= sd -> a = mkAudio audio_path d).
Proof.
  intros Ha. unfold create_segment_video.
  destruct (segment_body m sign_name horoscope_text image_path audio_path sd) eqn:B; simpl.
  - intros [= <-].
    destruct (body_audio _ _ B) as [a [A1 [A2 A3]]].
    exists a. repeat split; auto.
    intros Hle. destruct (body_value d sd Ha Hle _ B) as [A4 _]. congruence.
  - intros F.
    destruct (fallback_needs_files _ F) as [Hi _].
    rewrite (fallback_value d Ha Hi) in F. injection F as <-.
    exists (mkAudio audio_path d). repeat split; reflexivity.
Qed.

(** A segment never lasts a negative time when neither the audio nor the
    planned duration is negative. *)
Lemma build_duration_nonneg (d sd : Q) (seg : VideoClip) :
  AudioFileClip m audio_path = Some d ->
  0 <= d -> 0 <= sd ->
  create_segment_video m sign_name horoscope_text image_path audio_path sd = Some seg ->
  0 <= duration seg.
Proof.
  intros Ha Hd Hsd. unfold create_segment_video, segment_body, segment_fallback.
  rewrite Ha.
  assert (N : Qltb sd 0 = false).
  { unfold Qltb. apply Qle_bool_iff in Hsd. rewrite Hsd. reflexivity. }
  destruct (TextClip m horoscope_text), (TextClip m (Py.capitalize sign_name)),
           (ImageClip m image_path); simpl; try discriminate;
    try (intros [= <-]; simpl; exact Hd).
  destruct (audio_is_longer d sd); intros [= <-]; simpl; [|exact Hd].
  unfold subclip0. rewrite N. simpl. lra.
Qed.

End Builder.

(** C1, as the code has it: the duration of a built segment is the duration
    of the audio it carries, with no pad added.  If the audio file lasts [d]
    seconds then every segment [create_segment_video] returns lasts as long
    as its own audio clip, which is the whole file (so the segment lasts [d])
    whenever [d] does not exceed the planned [segment_duration]; and for the
    driver's [segment_duration = d + 1.0] a segment is returned whenever the
    image loads, and it lasts [d], not [d + 1.0]. *)
Theorem segment_lasts_as_long_as_its_audio
    (m : Media) (sign_name horoscope_text image_path audio_path : string) (d : Q) :
  AudioFileClip m audio_path = Some d ->
  (forall sd seg,
      create_segment_video m sign_name horoscope_text image_path audio_path sd = Some seg ->
      exists a, audio seg = Some a /\ duration seg = a_duration a
                /\ (d <= sd -> a = mkAudio audio_path d /\ duration seg = d))
  /\ (ImageClip m image_path = true ->
      exists seg,
        create_segment_video m sign_name horoscope_text image_path audio_path (d + 1)
        = Some seg
        /\ duration seg = d).
Proof.
  intros Ha. split.
  - intros sd seg H.
    destruct (build_duration m _ _ _ _ d sd seg Ha H) as [a [A1 [A2 [_ A3]]]].
    exists a. repeat split; auto.
    rewrite A2, (A3 H0). reflexivity.
  - intros Hi.
    destruct (proj2 (build_succeeds_iff m sign_name horoscope_text image_path audio_path
                       (d + 1))) as [seg H].
    { split; [exact Hi | exists d; exact Ha]. }
    exists seg. split; [exact H|].
    destruct (build_duration m _ _ _ _ d (d + 1) seg Ha H) as [a [A1 [A2 [_ A3]]]].
    rewrite A2, A3 by lra. reflexivity.
Qed.

Lemma segment_lasts_as_long_as_its_audio_witness :
  exists seg,
    create_segment_video Examples.studio "aries" "The stars favour aries."
      "images/aries.jpg" "output/aries_horoscope.mp3" ((123 # 10) + 1) = Some seg
    /\ duration seg = 123 # 10.
Proof.
  apply (segment_lasts_as_long_as_its_audio Examples.studio "aries"
           "The stars favour aries." "images/aries.jpg" "output/aries_horoscope.mp3"
           (123 # 10)); reflexivity.
Defined.

(** C1 as the spec words it fails: an audio of 12.3 s, built with the
    driver's planned duration 12.3 + 1.0, gives a segment of 12.3 s and not
    of 13.3 s. *)
Lemma padded_duration_counterexample :
  0 <= 123 # 10
  /\ exists seg,
       create_segment_video Examples.studio "aries" "The stars favour aries."
         "images/aries.jpg" "output/aries_horoscope.mp3" ((123 # 10) + 1) = Some seg
       /\ duration seg == 123 # 10
       /\ ~ duration seg == (123 # 10) + 1.
Proof.
  split; [discriminate|].
  eexists. split; [reflexivity|]. simpl. split; [reflexivity | discriminate].
Qed.

(** C3, as the code has it: when a text overlay cannot be rendered while the
    image and the audio load, [create_segment_video] returns the segment made
    of the image and the audio alone, and that segment lasts exactly as long
    as the audio (no pad), whatever duration was planned. *)
Theorem overlay_failure_degrades_to_image_and_audio
    (m : Media) (sign_name horoscope_text image_path audio_path : string) (sd d : Q) :
  TextClip m horoscope_text = false \/ TextClip m (Py.capitalize sign_name) = false ->
  AudioFileClip m audio_path = Some d ->
  ImageClip m image_path = true ->
  create_segment_video m sign_name horoscope_text image_path audio_path sd
  = Some (mkClip [Image image_path d] (Some (mkAudio audio_path d)) d).
Proof.
  intros Ht Ha Hi. unfold create_segment_video.
  assert (B : segment_body m sign_name horoscope_text image_path audio_path sd = None).
  { unfold segment_body. destruct Ht as [Ht|Ht].
    - rewrite Ht. reflexivity.
    - destruct (TextClip m horoscope_text); simpl; [|reflexivity].
      rewrite Ht. reflexivity. }
  rewrite B. simpl. apply fallback_value; assumption.
Qed.

Lemma overlay_failure_degrades_to_image_and_audio_witness :
  create_segment_video Examples.no_fonts "taurus" "Patience pays today."
    "images/default.jpg" "output/taurus_horoscope.mp3" (8 + 1)
  = Some (mkClip [Image "images/default.jpg" 8]
                 (Some (mkAudio "output/taurus_horoscope.mp3" 8)) 8).
Proof.
  apply (overlay_failure_degrades_to_image_and_audio Examples.no_fonts "taurus"
           "Patience pays today." "images/default.jpg" "output/taurus_horoscope.mp3"
           (8 + 1) 8).
  - left. reflexivity.
  - reflexivity.
  - reflexivity.
Defined.

(** C3 as the spec words it fails: with no text renderable and an audio of
    8 s, the degraded segment is returned but lasts 8 s, not 8 + 1.0 s. *)
Lemma degraded_segment_counterexample :
  TextClip Examples.no_fonts "Patience pays today." = false
  /\ exists seg,
       create_segment_video Examples.no_fonts "taurus" "Patience pays today."
         "images/default.jpg" "output/taurus_horoscope.mp3" (8 + 1) = Some seg
       /\ layers seg = [Image "images/default.jpg" 8]
       /\ AudioFileClip Examples.no_fonts "output/taurus_horoscope.mp3" = Some 8
       /\ ~ duration seg == 8 + 1.
Proof.
  split; [reflexivity|].
  eexists. split; [reflexivity|]. simpl. repeat split. discriminate.
Qed.

(** C10: with the driver's [segment_duration = d + 1.0], where [d] is the
    duration of the audio file, the test of line 135 is false, so the audio
    is never cut; and the planned duration does not reach the result: every
    planned duration that is not shorter than the audio gives a segment of
    the same final duration (and the same audio) as [d + 1.0] does. *)
Theorem truncation_unreachable_from_driver
    (m : Media) (sign_name horoscope_text image_path audio_path : string) (d : Q) :
  AudioFileClip m audio_path = Some d ->
  audio_is_longer d (d + 1) = false
  /\ forall sd, d <= sd ->
       option_map (fun seg => (duration seg, audio seg))
         (create_segment_video m sign_name horoscope_text image_path audio_path sd)
       = option_map (fun seg => (duration seg, audio seg))
           (create_segment_video m sign_name horoscope_text image_path audio_path (d + 1)).
Proof.
  intros Ha. split; [apply pad_never_truncates|].
  intros sd Hle.
  assert (same : forall x, d <= x ->
            option_map (fun seg => (duration seg, audio seg))
              (create_segment_video m sign_name horoscope_text image_path audio_path x)
            = if ImageClip m image_path
              then Some (d, Some (mkAudio audio_path d)) else None).
  { intros x Hx.
    destruct (create_segment_video m sign_name horoscope_text image_path audio_path x)
      as [seg|] eqn:E; simpl.
    - destruct (proj1 (build_succeeds_iff m _ _ _ _ x) (ex_intro _ seg E)) as [Hi _].
      destruct (build_duration m _ _ _ _ d x seg Ha E) as [a [A1 [A2 [_ A3]]]].
      rewrite Hi, A1, A2, (A3 Hx). reflexivity.
    - destruct (ImageClip m image_path) eqn:Hi; [|reflexivity].
      destruct (proj2 (build_succeeds_iff m sign_name horoscope_text image_path
                         audio_path x)) as [seg H].
      { split; [exact Hi | exists d; exact Ha]. }
      congruence. }
  rewrite (same sd Hle), (same (d + 1)) by lra. reflexivity.
Qed.

Lemma truncation_unreachable_from_driver_witness :
  audio_is_longer 8 (8 + 1) = false
  /\ forall sd, 8 <= sd ->
       option_map (fun seg => (duration seg, audio seg))
         (create_segment_video Examples.studio "leo" "Be bold." "images/leo.jpg"
            "output/leo_horoscope.mp3" sd)
       = option_map (fun seg => (duration seg, audio seg))
           (create_segment_video Examples.studio "leo" "Be bold." "images/leo.jpg"
              "output/leo_horoscope.mp3" (8 + 1)).
Proof.
  apply (truncation_unreachable_from_driver Examples.studio "leo" "Be bold."
           "images/leo.jpg" "output/leo_horoscope.mp3" 8).
  reflexivity.
Defined.

(* ------------------------------------------------------------------ *)
(** ** The topic loop *)

Lemma added_log (e : Event) (st : State) :
  added (trace (log e st))
  = (added (trace st) ++ match e with SegmentAdded s => [s] | _ => [] end)%list.
Proof. unfold added, log. simpl. rewrite flat_map_app. simpl. rewrite app_nil_r. reflexivity. Qed.

Lemma trace_write (p : string) (st : State) : trace (write p st) = trace st.
Proof. unfold write. destruct (exists_ p st); reflexivity. Qed.

Lemma setup_trace (w : World) (st : State) : trace (setup_credentials w st) = trace st.
Proof.
  unfold setup_credentials.
  destruct (Py.truthy_opt (GOOGLE_CREDENTIALS_JSON_CONTENT w)),
           (Py.truthy_opt (YOUTUBE_CLIENT_SECRET_JSON_CONTENT w)),
           (YOUTUBE_TOKEN_PICKLE_BASE64 w) as [b64|];
    try destruct (Py.truthy b64 && b64decode w b64);
    rewrite ?trace_write; reflexivity.
Qed.

(** A turn of the loop that ends without an exception either leaves the
    variables alone and adds no segment to the trace, or adds the segment it
    built to both. *)
Lemma process_sign_ok (w : World) (sign : string) (v v' : LoopVars) (st st' : State) :
  process_sign w sign v st = (Ok v', st') ->
  (v' = v /\ added (trace st') = added (trace st))
  \/ exists seg, built_by w (sign, seg) /\ v' = add_segment sign seg v
                 /\ added (trace st') = (added (trace st) ++ [sign])%list.
Proof.
  unfold process_sign.
  destruct (fetch_horoscope w sign) as [raw|e]; [|discriminate].
  destruct (fetch_failed raw).
  { intros [= <- <-]. left. rewrite !added_log, !app_nil_r. split; reflexivity. }
  unfold text_to_speech_google.
  destruct (synthesize_speech w (regenerate_text raw sign)); cbn [negb].
  2:{ intros [= <- <-]. left. rewrite !added_log, !app_nil_r. split; reflexivity. }
  destruct (choose_image sign _) as [image_filepath|].
  2:{ intros [= <- <-]. left.
      rewrite added_log, trace_write, added_log, !app_nil_r. split; reflexivity. }
  destruct (AudioFileClip (media w) (audio_file sign)) as [d|] eqn:Ha; [|discriminate].
  destruct (create_segment_video (media w) sign (regenerate_text raw sign) image_filepath
              (audio_file sign) (Py.float_add d 1)) as [seg|] eqn:Hc;
    intros [= <- <-]; [right | left].
  - exists seg. split; [|split; [reflexivity|]].
    + exists raw, image_filepath, d. split; assumption.
    + rewrite added_log, trace_write, added_log, app_nil_r. reflexivity.
  - rewrite added_log, trace_write, added_log, !app_nil_r. split; reflexivity.
Qed.

Lemma topic_loop_rows (w : World) (signs : list string) :
  forall v st v' st',
    topic_loop w signs v st = (Ok v', st') ->
    exists rows,
      subseq (map fst rows) signs /\ Forall (built_by w) rows /\ v' = add_rows rows v
      /\ added (trace st') = (added (trace st) ++ map fst rows)%list.
Proof.
  induction signs as [|sign rest IH]; intros v st v' st' H; simpl in H.
  - injection H as <- <-. exists []. rewrite app_nil_r. repeat split; constructor.
  - destruct (process_sign w sign v st) as [[v1|e] st1] eqn:P; [|discriminate].
    destruct (IH _ _ _ _ H) as [rows [S [B [E A]]]].
    destruct (process_sign_ok _ _ _ _ _ _ P) as [[-> A1]|[seg [Bs [-> A1]]]].
    + exists rows. rewrite A, A1. repeat split; auto. constructor; exact S.
    + exists ((sign, seg) :: rows). rewrite A, A1, <- app_assoc.
      repeat split; auto. simpl. constructor; exact S.
Qed.

(** Line 49 at work: either it was not run, or every request raises. *)
Lemma environ_cases (w : World) :
  (Py.truthy_opt (GOOGLE_CREDENTIALS_JSON_CONTENT w) = false /\ environ_after_setup w = w)
  \/ (Py.truthy_opt (GOOGLE_CREDENTIALS_JSON_CONTENT w) = true
      /\ forall sign, post (environ_after_setup w) sign = OtherException AttributeError).
Proof.
  unfold environ_after_setup.
  destruct (Py.truthy_opt (GOOGLE_CREDENTIALS_JSON_CONTENT w)).
  - right. split; [reflexivity|]. intros sign. reflexivity.
  - left. split; reflexivity.
Qed.

Lemma first_fetch_raises (w : World) (e : PyExn) (sign : string) (rest : list string)
    (v : LoopVars) (st : State) :
  post w sign = OtherException e ->
  topic_loop w (sign :: rest) v st = (Raise e, log (Fetch sign) st).
Proof.
  intros H. cbn [topic_loop]. unfold process_sign, fetch_horoscope. rewrite H. reflexivity.
Qed.

(** After line 49 a run raises at its first request. *)
Lemma run_loop_after_line_49 (w : World) :
  Py.truthy_opt (GOOGLE_CREDENTIALS_JSON_CONTENT w) = true ->
  run_loop w
  = (Raise AttributeError,
     log (Fetch "aries") (setup_credentials w (mkState (disk w) []))).
Proof.
  intros H. destruct (environ_cases w) as [[F _]|[_ P]]; [congruence|].
  unfold run_loop, ZODIAC_SIGNS. apply first_fetch_raises. apply P.
Qed.

Lemma timeline_world (w : World) (v : LoopVars) :
  timeline w = Ok v -> environ_after_setup w = w.
Proof.
  intros H. destruct (environ_cases w) as [[_ E]|[T _]]; [exact E|].
  unfold timeline in H. rewrite (run_loop_after_line_49 w T) in H. discriminate H.
Qed.

Lemma run_loop_without_line_49 (w : World) :
  Py.truthy_opt (GOOGLE_CREDENTIALS_JSON_CONTENT w) = false ->
  run_loop w = topic_loop w ZODIAC_SIGNS init_vars (setup_credentials w (mkState (disk w) [])).
Proof.
  intros H. destruct (environ_cases w) as [[_ E]|[T _]]; [|congruence].
  unfold run_loop. rewrite E. reflexivity.
Qed.

Lemma main_without_line_49 (fuel : nat) (w : World) :
  Py.truthy_opt (GOOGLE_CREDENTIALS_JSON_CONTENT w) = false ->
  main fuel w = run fuel w (setup_credentials w (mkState (disk w) [])).
Proof.
  intros H. destruct (environ_cases w) as [[_ E]|[T _]]; [|congruence].
  unfold main. rewrite E. reflexivity.
Qed.

(** Line 49 ends the run: with the first variable set, [main] raises at the
    first request, and the three files of the set-up are where it left
    them. *)
Lemma main_after_line_49 (fuel : nat) (w : World) :
  Py.truthy_opt (GOOGLE_CREDENTIALS_JSON_CONTENT w) = true ->
  main fuel w
  = (Raised AttributeError,
     log (Fetch "aries") (setup_credentials w (mkState (disk w) []))).
Proof.
  intros H. pose proof (run_loop_after_line_49 w H) as R.
  unfold main, run. unfold run_loop in R. rewrite R. reflexivity.
Qed.

Lemma timeline_rows (w : World) (v : LoopVars) :
  timeline w = Ok v ->
  exists rows,
    subseq (map fst rows) ZODIAC_SIGNS /\ Forall (built_by w) rows
    /\ v = add_rows rows init_vars
    /\ added (loop_trace w) = map fst rows.
Proof.
  intros H. pose proof (timeline_world w v H) as W.
  unfold loop_trace. unfold timeline in H. unfold run_loop in *. rewrite W in *.
  generalize dependent ZODIAC_SIGNS. intros signs.
  destruct (topic_loop w signs init_vars _) as [r st] eqn:E. cbn [fst snd].
  intros ->. destruct (topic_loop_rows _ _ _ _ _ _ E) as [rows [S [B [V A]]]].
  exists rows. repeat split; auto.
  rewrite A, setup_trace. reflexivity.
Qed.

(** What adding rows does to each of the three variables. *)
Lemma add_rows_segments (rows : list Row) :
  forall v, all_video_segments (add_rows rows v)
            = (all_video_segments v ++ map snd rows)%list.
Proof.
  induction rows as [|r rows IH]; intros v; simpl.
  - rewrite app_nil_r. reflexivity.
  - unfold add_rows in *. simpl. rewrite IH. simpl. rewrite <- app_assoc. reflexivity.
Qed.

Lemma add_rows_parts (rows : list Row) :
  forall v, youtube_description_parts (add_rows rows v)
            = (youtube_description_parts v ++ labels (current_timestamp_seconds v) rows)%list.
Proof.
  induction rows as [|r rows IH]; intros v; simpl.
  - rewrite app_nil_r. reflexivity.
  - unfold add_rows in *. simpl. rewrite IH. simpl. rewrite <- app_assoc. reflexivity.
Qed.

Lemma add_rows_timestamp (rows : list Row) :
  forall v, current_timestamp_seconds (add_rows rows v)
            = fold_left (fun t c => Py.float_add t (duration c)) (map snd rows)
                (current_timestamp_seconds v).
Proof.
  induction rows as [|r rows IH]; intros v; simpl; [reflexivity|].
  unfold add_rows in *. simpl. rewrite IH. reflexivity.
Qed.

Lemma labels_length (rows : list Row) : forall t, List.length (labels t rows) = List.length rows.
Proof. induction rows as [|r rows IH]; intros t; simpl; [|rewrite IH]; reflexivity. Qed.

(** The [i]-th label is made from the start time plus the durations of the
    [i] rows before it. *)
Lemma labels_nth (rows : list Row) :
  forall t i,
    nth_error (labels t rows) i
    = option_map
        (fun r => chapter_line
                    (fold_left (fun t c => Py.float_add t (duration c))
                       (firstn i (map snd rows)) t)
                    (fst r))
        (nth_error rows i).
Proof.
  induction rows as [|r rows IH]; intros t i.
  - destruct i; reflexivity.
  - destruct i as [|i]; simpl; [reflexivity|]. apply IH.
Qed.

(** Sums of non-negative durations grow with the list, rounding included. *)
Lemma prefix_sums_mono (segs : list VideoClip) :
  Forall (fun c => 0 <= duration c) segs ->
  forall t i j, is_double t -> (i <= j)%nat ->
    fold_left (fun t c => Py.float_add t (duration c)) (firstn i segs) t
    <= fold_left (fun t c => Py.float_add t (duration c)) (firstn j segs) t.
Proof.
  induction 1 as [|c l Hc _ IH]; intros t i j Dt Hij.
  - rewrite !firstn_nil. simpl. lra.
  - destruct (float_add_ge t (duration c) Dt Hc) as [G D].
    destruct i as [|i], j as [|j]; simpl; try lia; try lra.
    + specialize (IH (Py.float_add t (duration c)) O j D (Nat.le_0_l j)).
      simpl in IH. lra.
    + apply IH; [exact D | lia].
Qed.

Lemma offset_before_mono (segs : list VideoClip) (i j : nat) :
  Forall (fun c => 0 <= duration c) segs ->
  (i <= j)%nat -> offset_before i segs <= offset_before j segs.
Proof.
  intros Hpos Hij. apply prefix_sums_mono; [assumption | apply is_double_zero | assumption].
Qed.

Lemma float_add_nonneg (x y : Q) : 0 <= x -> 0 <= y -> 0 <= Py.float_add x y.
Proof.
  intros Hx Hy. unfold Py.float_add. apply is_double_nonneg, double_is_double.
  pose proof (is_double_nonneg _ (double_is_double x Hx)).
  pose proof (is_double_nonneg _ (double_is_double y Hy)). lra.
Qed.

(** Line 302 as the machine computes it: for an audio whose duration is a
    machine number, the planned duration [d + 1.0] is not below [d], so the
    test of line 135 fails in the driver's call. *)
Lemma planned_duration_not_shorter (d : Q) :
  is_double d -> audio_is_longer d (Py.float_add d 1) = false.
Proof.
  intros D. apply not_longer.
  apply (float_add_ge d 1 D). lra.
Qed.

Lemma built_by_audio (w : World) (r : Row) :
  built_by w r ->
  exists d, audio (snd r) = Some (mkAudio (audio_file (fst r)) d) /\ duration (snd r) = d.
Proof.
  intros [raw [image_path [d [Ha Hc]]]].
  destruct (build_duration _ _ _ _ _ d _ _ Ha Hc) as [[f a] [A1 [A2 [A3 _]]]].
  simpl in *. subst f. exists a. split; assumption.
Qed.

Lemma rows_nonneg (w : World) (rows : list Row) :
  durations_nonneg w -> Forall (built_by w) rows ->
  Forall (fun c => 0 <= duration c) (map snd rows).
Proof.
  intros Hw. induction 1 as [|r rows Hr _ IH]; simpl; constructor; auto.
  destruct Hr as [raw [image_path [d [Ha Hc]]]].
  pose proof (Hw _ _ Ha) as Hd.
  eapply build_duration_nonneg; [exact Ha | exact Hd | | exact Hc].
  apply float_add_nonneg; [exact Hd | lra].
Qed.

Lemma subseq_In {A : Type} (small big : list A) :
  subseq small big -> forall x, In x small -> In x big.
Proof.
  induction 1; intros y Hy; simpl in *; auto.
  destruct Hy as [->|Hy]; auto.
Qed.

Lemma sunny_durations_nonneg : durations_nonneg Examples.sunny.
Proof.
  intros path d. simpl. unfold Examples.durations.
  destruct (String.eqb path "output/aries_horoscope.mp3"); intros [= <-]; lra.
Qed.


Lemma rows_carry_their_audio (w : World) (rows : list Row) :
  Forall (built_by w) rows ->
  Forall2 (fun sign seg => exists d, audio seg = Some (mkAudio (audio_file sign) d))
          (map fst rows) (map snd rows).
Proof.
  induction 1 as [|r rows Hr _ IH]; simpl; constructor; auto.
  destruct (built_by_audio _ _ Hr) as [d [A _]]. exists d. exact A.
Qed.



Lemma labels_name_their_sign (rows : list Row) :
  forall t, Forall2 (fun sign line => exists t', line = chapter_line t' sign)
                    (map fst rows) (labels t rows).
Proof.
  induction rows as [|r rows IH]; intros t; simpl; constructor; auto.
  exists t. reflexivity.
Qed.

(** The files a run writes never make an existing file disappear. *)
Lemma exists_write (p q : string) (st : State) :
  exists_ p st = true -> exists_ p (write q st) = true.
Proof.
  intros H. unfold write. destruct (exists_ q st); [exact H|].
  unfold exists_ in *. simpl. rewrite existsb_app, H. reflexivity.
Qed.

Lemma apology_is_sentinel (sign : string) : fetch_failed (apology sign) = true.
Proof.
  unfold fetch_failed, apology.
  assert (H : Py.contains "couldn't retrieve"
                ("Apologies, " ++ sign ++ ". We couldn't retrieve your horoscope at this moment.")
              = true).
  { apply contains_later. apply contains_later.
    apply (contains_later _ ". We "). apply (contains_here "couldn't retrieve"). }
  rewrite H. rewrite !orb_true_r. reflexivity.
Qed.

(** In a [choosy] world a sign is included exactly when [keep] says so. *)
Lemma choosy_process (keep : string -> bool) (sign : string) (v : LoopVars) (st : State) :
  exists_ generic_image_path st = true ->
  exists v' st',
    process_sign (Examples.choosy keep) sign v st = (Ok v', st')
    /\ exists_ generic_image_path st' = true
    /\ if keep sign
       then exists seg, built_by (Examples.choosy keep) (sign, seg)
                        /\ v' = add_segment sign seg v
       else v' = v.
Proof.
  intros Hd. unfold process_sign, fetch_horoscope. simpl post.
  destruct (keep sign).
  - simpl preview. cbv iota. simpl get_description.
    replace (fetch_failed "A calm day.") with false by (vm_compute; reflexivity).
    unfold text_to_speech_google. simpl synthesize_speech. cbv iota. simpl negb. cbv iota.
    set (st1 := write (audio_file sign) (log (Fetch sign) st)).
    assert (Hd1 : exists_ generic_image_path st1 = true) by (apply exists_write; exact Hd).
    assert (Hc : exists p, choose_image sign st1 = Some p).
    { unfold choose_image. destruct (exists_ (image_file sign) st1); [eauto|].
      rewrite Hd1. eauto. }
    destruct Hc as [p ->].
    assert (Ha : exists d, AudioFileClip (media (Examples.choosy keep)) (audio_file sign)
                           = Some d).
    { simpl. unfold Examples.durations.
      destruct (String.eqb (audio_file sign) "output/aries_horoscope.mp3"); eauto. }
    destruct Ha as [d Ha]. rewrite Ha.
    destruct (proj2 (build_succeeds_iff (media (Examples.choosy keep)) sign
                       (regenerate_text "A calm day." sign) p (audio_file sign)
                       (Py.float_add d 1)))
      as [seg Hs].
    { split; [reflexivity | exists d; exact Ha]. }
    rewrite Hs. eexists _, _. split; [reflexivity|]. split; [exact Hd1|].
    exists seg. split; [|reflexivity].
    exists "A calm day.", p, d. split; assumption.
  - rewrite apology_is_sentinel.
    eexists _, _. split; [reflexivity|]. split; [exact Hd | reflexivity].
Qed.

Lemma choosy_loop (keep : string -> bool) (signs : list string) :
  forall v st,
    exists_ generic_image_path st = true ->
    exists rows st',
      topic_loop (Examples.choosy keep) signs v st = (Ok (add_rows rows v), st')
      /\ map fst rows = filter keep signs
      /\ Forall (built_by (Examples.choosy keep)) rows.
Proof.
  induction signs as [|sign rest IH]; intros v st Hd; simpl.
  - exists [], st. repeat split; constructor.
  - destruct (choosy_process keep sign v st Hd) as [v1 [st1 [P [Hd1 K]]]].
    rewrite P. destruct (IH v1 st1 Hd1) as [rows [st' [L [F B]]]].
    destruct (keep sign).
    + destruct K as [seg [Bs ->]].
      exists ((sign, seg) :: rows), st'. simpl. rewrite F.
      repeat split; auto.
    + subst v1. exists rows, st'. repeat split; auto.
Qed.

(** C7: in every run whose topic loop ends, the included segments are those
    of a sub-list of the twelve signs taken in the list order (each segment
    carries the audio file of its sign, each chapter line the name of its
    sign), and there are as many chapter lines as segments; and every set of
    skipped signs occurs: whatever signs [keep] retains, some run includes
    exactly those, in list order. *)
Theorem segments_follow_topic_order :
  (forall (w : World) (v : LoopVars),
      timeline w = Ok v ->
      List.length (youtube_description_parts v) = List.length (all_video_segments v)
      /\ exists signs,
           subseq signs ZODIAC_SIGNS
           /\ Forall2 (fun sign seg => exists d, audio seg = Some (mkAudio (audio_file sign) d))
                      signs (all_video_segments v)
           /\ Forall2 (fun sign line => exists t, line = chapter_line t sign)
                      signs (youtube_description_parts v))
  /\ List.length ZODIAC_SIGNS = 12%nat
  /\ NoDup ZODIAC_SIGNS
  /\ (forall keep : string -> bool,
        exists w v,
          timeline w = Ok v
          /\ Forall2 (fun sign seg => exists d, audio seg = Some (mkAudio (audio_file sign) d))
                     (filter keep ZODIAC_SIGNS) (all_video_segments v)
          /\ List.length (youtube_description_parts v)
             = List.length (filter keep ZODIAC_SIGNS)).
Proof.
  split; [|split; [reflexivity|split]].
  - intros w v H. destruct (timeline_rows _ _ H) as [rows [S [B [-> _]]]].
    rewrite add_rows_segments, add_rows_parts. simpl. split.
    + rewrite labels_length, length_map. reflexivity.
    + exists (map fst rows). split; [exact S|]. split.
      * apply (rows_carry_their_audio w); exact B.
      * apply labels_name_their_sign.
  - unfold ZODIAC_SIGNS.
    repeat (constructor; [simpl; intros H; repeat (destruct H as [H|H]; [discriminate H|]); exact H|]).
    constructor.
  - intros keep.
    destruct (choosy_loop keep ZODIAC_SIGNS init_vars
                (setup_credentials (Examples.choosy keep)
                   (mkState (disk (Examples.choosy keep)) [])))
      as [rows [st' [L [F B]]]]; [reflexivity|].
    exists (Examples.choosy keep), (add_rows rows init_vars).
    split; [unfold timeline, run_loop; change (environ_after_setup (Examples.choosy keep))
              with (Examples.choosy keep); rewrite L; reflexivity|].
    rewrite <- F, add_rows_segments, add_rows_parts. simpl. split.
    + apply (rows_carry_their_audio (Examples.choosy keep)); exact B.
    + rewrite labels_length, length_map. reflexivity.
Qed.

(** The chapters of the run in [Examples.sunny]: aries speaks for 12.3 s, so
    the second chapter starts at 00:12. *)
Example sunny_chapters :
  youtube_description_parts Examples.sunny_vars
  = ["00:00 Aries"; "00:12 Gemini"; "00:20 Cancer"; "00:28 Libra"; "00:36 Scorpio";
     "00:44 Sagittarius"; "00:52 Capricorn"; "01:00 Aquarius"; "01:08 Pisces"].
Proof. reflexivity. Qed.

Lemma segments_follow_topic_order_witness :
  List.length (youtube_description_parts Examples.sunny_vars)
  = List.length (all_video_segments Examples.sunny_vars)
  /\ exists signs,
       subseq signs ZODIAC_SIGNS
       /\ Forall2 (fun sign seg => exists d, audio seg = Some (mkAudio (audio_file sign) d))
                  signs (all_video_segments Examples.sunny_vars)
       /\ Forall2 (fun sign line => exists t, line = chapter_line t sign)
                  signs (youtube_description_parts Examples.sunny_vars).
Proof.
  apply (proj1 segments_follow_topic_order Examples.sunny Examples.sunny_vars).
  vm_compute. reflexivity.
Defined.

(* ------------------------------------------------------------------ *)
(** ** Chapter labels *)

Lemma string_length_app (a b : string) :
  String.length (a ++ b) = (String.length a + String.length b)%nat.
Proof. induction a as [|c a IH]; simpl; [|rewrite IH]; reflexivity. Qed.

(** The label shows the whole seconds of [t], split into minutes and
    seconds. *)
Lemma chapter_line_floor (t : Q) (sign : string) :
  chapter_line t sign
  = Py.format_02d (Qfloor t / 60) ++ ":" ++ Py.format_02d (Qfloor t mod 60)
    ++ " " ++ Py.capitalize sign.
Proof. unfold chapter_line. rewrite floordiv_60, mod_60. reflexivity. Qed.

Example label_is_not_rounded : chapter_line (139 # 10) "taurus" = "00:13 Taurus".
Proof. reflexivity. Qed.

Example label_keeps_fractions :
  youtube_description_parts
    (add_rows [("aries", mkClip [] None (6 # 10)); ("taurus", mkClip [] None (6 # 10));
               ("gemini", mkClip [] None (6 # 10))] init_vars)
  = ["00:00 Aries"; "00:00 Taurus"; "00:01 Gemini"].
Proof. reflexivity. Qed.

(** A clock that adds machine numbers drifts from the exact sum: ten
    tenths of a second stay below one second. *)
Example label_follows_the_clock :
  youtube_description_parts Examples.tenths_vars
  = ["00:00 Aries"; "00:00 Taurus"; "00:00 Gemini"; "00:00 Cancer"; "00:00 Leo";
     "00:00 Virgo"; "00:00 Libra"; "00:00 Scorpio"; "00:00 Sagittarius";
     "00:00 Capricorn"; "00:00 Aquarius"; "00:01 Pisces"].
Proof. reflexivity. Qed.

(** C8, as the spec words it, fails: the label is not always MM:SS.  With
    ten minutes of speech per sign the eleventh chapter starts at 6000 s and
    its label is 100:00, three characters before the colon. *)
Lemma hundred_minutes_counterexample :
  timeline Examples.marathon = Ok Examples.marathon_vars
  /\ offset_before 10 (all_video_segments Examples.marathon_vars) == 6000
  /\ nth_error (youtube_description_parts Examples.marathon_vars) 10
     = Some "100:00 Aquarius"
  /\ ~ (exists m1 m2 s1 s2 : ascii,
          "100:00 Aquarius"
          = String m1 (String m2 (String ":" (String s1 (String s2 " Aquarius"))))).
Proof.
  split; [vm_compute; reflexivity|].
  split; [vm_compute; reflexivity|].
  split; [reflexivity|].
  intros [m1 [m2 [s1 [s2 H]]]]. discriminate H.
Qed.

(** C8, amended: every chapter line of a run is written for the sign whose
    segment it opens, from the whole seconds of the clock at that point (the
    largest whole number not above it, which for the clock of a run is
    truncation and never rounding up): the minutes, zero-filled to two
    characters and never cut, so exactly two characters only while the clock
    is below 6000 s; a colon; and the seconds, always two characters.  The
    clock itself keeps its fraction: it is the sum of the durations as
    machine numbers add them, one rounding per addition. *)
Theorem chapter_labels_truncate_to_whole_seconds (w : World) (v : LoopVars) :
  timeline w = Ok v ->
  (forall i line,
      nth_error (youtube_description_parts v) i = Some line ->
      exists sign,
        let t := offset_before i (all_video_segments v) in
        nth_error (added (loop_trace w)) i = Some sign
        /\ line = Py.format_02d (Qfloor t / 60) ++ ":" ++ Py.format_02d (Qfloor t mod 60)
                  ++ " " ++ Py.capitalize sign
        /\ inject_Z (Qfloor t) <= t < inject_Z (Qfloor t) + 1
        /\ String.length (Py.format_02d (Qfloor t mod 60)) = 2%nat
        /\ (durations_nonneg w ->
            0 <= t /\ Py.int t = Qfloor t
            /\ (2 <= String.length (Py.format_02d (Qfloor t / 60)))%nat
            /\ (String.length (Py.format_02d (Qfloor t / 60)) = 2%nat <-> t < 6000)))
  /\ current_timestamp_seconds v = sum_durations (all_video_segments v)
  /\ (forall sign seg v0,
        current_timestamp_seconds (add_segment sign seg v0)
        = Py.float_add (current_timestamp_seconds v0) (duration seg)).
Proof.
  intros H. destruct (timeline_rows _ _ H) as [rows [S [B [-> A]]]].
  rewrite A, add_rows_segments, add_rows_parts, add_rows_timestamp. simpl.
  split; [|split; reflexivity].
  intros i line Hi. rewrite labels_nth in Hi.
  destruct (nth_error rows i) as [r|] eqn:Hr; [|discriminate].
  injection Hi as <-. exists (fst r).
  change (fold_left (fun t c => Py.float_add t (duration c)) (firstn i (map snd rows)) 0)
    with (offset_before i (map snd rows)).
  set (t := offset_before i (map snd rows)).
  split; [rewrite nth_error_map, Hr; reflexivity|].
  split; [apply chapter_line_floor|].
  split.
  { split; [apply Qfloor_le|].
    pose proof (Qlt_floor t) as L. rewrite inject_Z_plus in L. exact L. }
  split.
  { apply format_02d_two_digits.
    pose proof (Z.mod_pos_bound (Qfloor t) 60). lia. }
  intros Hw.
  assert (T0 : 0 <= t).
  { change 0 with (offset_before 0 (map snd rows)).
    apply offset_before_mono; [|lia]. eapply rows_nonneg; eauto. }
  split; [exact T0|]. split; [apply int_nonneg; exact T0|].
  assert (F0 : (0 <= Qfloor t)%Z).
  { change 0%Z with (Qfloor 0). apply Qfloor_resp_le. exact T0. }
  assert (M0 : (0 <= Qfloor t / 60)%Z) by (apply Z.div_pos; lia).
  destruct (format_02d_length _ M0) as [L2 E2].
  split; [exact L2|].
  rewrite E2. split.
  - intros D.
    assert (F1 : (Qfloor t < 6000)%Z).
    { destruct (Z_lt_le_dec (Qfloor t) 6000) as [?|G]; [assumption|].
      assert ((100 <= Qfloor t / 60)%Z) by (apply Z.div_le_lower_bound; lia). lia. }
    pose proof (Qlt_floor t) as U.
    assert (V : inject_Z (Qfloor t + 1) <= 6000).
    { change 6000 with (inject_Z 6000). rewrite <- Zle_Qle. lia. }
    lra.
  - intros T1.
    assert (F1 : (Qfloor t < 6000)%Z).
    { rewrite Zlt_Qlt. eapply Qle_lt_trans; [apply Qfloor_le | exact T1]. }
    apply Z.div_lt_upper_bound; lia.
Qed.

Lemma chapter_labels_truncate_to_whole_seconds_witness :
  exists sign,
    let t := offset_before 1 (all_video_segments Examples.sunny_vars) in
    nth_error (added (loop_trace Examples.sunny)) 1 = Some sign
    /\ "00:12 Gemini"
       = Py.format_02d (Qfloor t / 60) ++ ":" ++ Py.format_02d (Qfloor t mod 60)
         ++ " " ++ Py.capitalize sign
    /\ inject_Z (Qfloor t) <= t < inject_Z (Qfloor t) + 1
    /\ String.length (Py.format_02d (Qfloor t mod 60)) = 2%nat
    /\ (durations_nonneg Examples.sunny ->
        0 <= t /\ Py.int t = Qfloor t
        /\ (2 <= String.length (Py.format_02d (Qfloor t / 60)))%nat
        /\ (String.length (Py.format_02d (Qfloor t / 60)) = 2%nat <-> t < 6000)).
Proof.
  assert (T : timeline Examples.sunny = Ok Examples.sunny_vars) by (vm_compute; reflexivity).
  apply (proj1 (chapter_labels_truncate_to_whole_seconds Examples.sunny
                  Examples.sunny_vars T) 1%nat "00:12 Gemini").
  reflexivity.
Defined.

(* ------------------------------------------------------------------ *)
(** ** The upload loop *)

Lemma calls_log (e : Event) (st : State) :
  calls (trace (log e st))
  = (calls (trace st) + match e with NextChunk _ => 1 | _ => 0 end)%nat.
Proof.
  unfold calls, log. simpl. rewrite filter_app, List.length_app.
  destruct e; simpl; lia.
Qed.

Lemma completions_log (e : Event) (st : State) :
  completions (trace (log e st))
  = (completions (trace st) + match e with UploadedId _ => 1 | _ => 0 end)%nat.
Proof.
  unfold completions, log. simpl. rewrite filter_app, List.length_app.
  destruct e; simpl; lia.
Qed.

(** [n] calls without a response from call [k] on, then a response: the
    loop makes [n + 1] further calls and hands the response over, given fuel
    for them. *)
Lemma chunk_loop_completes (req : nat -> ChunkResult) (r : Response) (n : nat) :
  forall k fuel st,
    (forall j, (j < n)%nat -> exists s, req (k + j)%nat = Chunk s None) ->
    (exists s, req (k + n)%nat = Chunk s (Some r)) ->
    (n < fuel)%nat ->
    exists st',
      chunk_loop fuel req k st = (GotResponse r, st')
      /\ files st' = files st
      /\ calls (trace st') = (calls (trace st) + n + 1)%nat
      /\ completions (trace st') = completions (trace st).
Proof.
  induction n as [|n IH]; intros k fuel st Hp Hc Hf.
  - destruct fuel as [|fuel]; [lia|]. destruct Hc as [s Hc].
    rewrite Nat.add_0_r in Hc. simpl. rewrite Hc.
    destruct s as [s|]; eexists; (split; [reflexivity|]);
      repeat rewrite ?calls_log, ?completions_log; simpl; repeat split; lia.
  - destruct fuel as [|fuel]; [lia|].
    destruct (Hp O) as [s Hs]; [lia|]. rewrite Nat.add_0_r in Hs.
    simpl. rewrite Hs.
    set (st1 := match s with
                | Some s0 => log (UploadedPercent (percent s0)) (log (NextChunk k) st)
                | None => log (NextChunk k) st
                end).
    assert (F1 : files st1 = files st) by (destruct s; reflexivity).
    assert (C1 : calls (trace st1) = (calls (trace st) + 1)%nat)
      by (destruct s; unfold st1; repeat rewrite calls_log; simpl; lia).
    assert (D1 : completions (trace st1) = completions (trace st))
      by (destruct s; unfold st1; repeat rewrite completions_log; simpl; lia).
    destruct (IH (S k) fuel st1) as [st' [E [F [C D]]]].
    + intros j Hj. destruct (Hp (S j)) as [s' Hs']; [lia|].
      exists s'. rewrite <- Hs'. f_equal. lia.
    + destruct Hc as [s' Hs']. exists s'. rewrite <- Hs'. f_equal. lia.
    + lia.
    + exists st'. split; [exact E|]. split; [congruence|]. split; lia.
Qed.

(** C6: if the upload request brings no response [n] times (zero included;
    each time with or without a progress report) and then completes with a
    response carrying an identifier, then with any
    fuel above [n] the loop of lines 238-241 ends after exactly [n + 1] calls
    of [next_chunk], and [upload_video_to_youtube] returns that identifier,
    announcing the completed upload exactly once. *)
Theorem upload_loop_terminates
    (w : World) (n : nat) (r : Response) (id file_path title description : string)
    (st : State) :
  progress_then_complete (next_chunk w) n r ->
  resp_id r = Some id ->
  exists_ file_path st = true ->
  forall fuel, (n < fuel)%nat ->
    exists st',
      upload_video_to_youtube fuel w file_path title description st
      = (UploadReturned (Some id), st')
      /\ calls (trace st') = (calls (trace st) + n + 1)%nat
      /\ completions (trace st') = (completions (trace st) + 1)%nat
      /\ last (trace st') ProcessFinished = UploadedId id.
Proof.
  intros [Hp Hc] Hid Hex fuel Hf. unfold upload_video_to_youtube.
  assert (Hex' : exists_ file_path (log (Upload file_path title description) st) = true)
    by exact Hex.
  rewrite Hex'. simpl negb. cbv iota.
  destruct (chunk_loop_completes (next_chunk w) r n 0 fuel
              (log (Upload file_path title description) st))
    as [st1 [E [_ [C D]]]]; auto.
  rewrite E, Hid. eexists. split; [reflexivity|].
  rewrite calls_log, completions_log, C, D, calls_log, completions_log. simpl.
  repeat split; try lia.
  apply last_last.
Qed.

Lemma upload_loop_terminates_witness :
  exists st',
    upload_video_to_youtube 3 Examples.sunny final_video_filepath
      "Daily Horoscope Compilation" "00:00 Aries" (mkState [final_video_filepath] [])
    = (UploadReturned (Some "dQw4w9WgXcQ"), st')
    /\ calls (trace st') = (calls [] + 2 + 1)%nat
    /\ completions (trace st') = (completions [] + 1)%nat
    /\ last (trace st') ProcessFinished = UploadedId "dQw4w9WgXcQ".
Proof.
  apply (upload_loop_terminates Examples.sunny 2 (mkResponse (Some "dQw4w9WgXcQ"))
           "dQw4w9WgXcQ" final_video_filepath "Daily Horoscope Compilation" "00:00 Aries"
           (mkState [final_video_filepath] [])).
  - split.
    + intros k Hk. destruct k as [|[|k]]; [eexists; reflexivity | eexists; reflexivity | lia].
    + eexists; reflexivity.
  - reflexivity.
  - reflexivity.
  - lia.
Defined.

(** The percentage is cut from a product of machine numbers: 29 bytes of
    100 are announced as 28%. *)
Example percent_of_machine_numbers :
  percent (mkProgress 29 (Some 100%Z)) = 28%Z /\ percent (mkProgress 50 (Some 100%Z)) = 50%Z.
Proof. split; vm_compute; reflexivity. Qed.

(* ------------------------------------------------------------------ *)
(** ** Fetching and the skip test *)

Lemma truthy_false_iff (s : string) : Py.truthy s = false <-> s = "".
Proof. destruct s; simpl; split; intros H; try reflexivity; discriminate. Qed.

Lemma fetch_failed_iff (text : string) :
  fetch_failed text = true
  <-> text = "" \/ Py.contains "Could not fetch" text = true
      \/ Py.contains "couldn't retrieve" text = true.
Proof.
  unfold fetch_failed. rewrite !orb_true_iff, negb_true_iff, truthy_false_iff. tauto.
Qed.

Lemma process_sign_skips (w : World) (sign text : string) (v : LoopVars) (st : State) :
  fetch_horoscope w sign = Ok text ->
  fetch_failed text = true ->
  process_sign w sign v st = (Ok v, log (Skipping sign FetchError) (log (Fetch sign) st)).
Proof. intros F S. unfold process_sign. rewrite F, S. reflexivity. Qed.

Lemma last_log (e d : Event) (st : State) : last (trace (log e st)) d = e.
Proof. unfold log. simpl. apply last_last. Qed.

Lemma process_sign_goes_on (w : World) (sign text : string) (v : LoopVars) (st : State) :
  fetch_horoscope w sign = Ok text ->
  fetch_failed text = false ->
  last (trace (snd (process_sign w sign v st))) ProcessFinished <> Skipping sign FetchError.
Proof.
  intros F S. unfold process_sign. rewrite F, S. unfold text_to_speech_google.
  destruct (synthesize_speech w (regenerate_text text sign)); simpl negb; cbv iota.
  - match goal with |- context [choose_image sign ?s] => destruct (choose_image sign s) end.
    + destruct (AudioFileClip (media w) (audio_file sign)) as [d|].
      * match goal with |- context [create_segment_video ?a ?b ?c ?e ?f ?g] =>
          destruct (create_segment_video a b c e f g) end;
          simpl snd; rewrite last_log; discriminate.
      * simpl snd.
        rewrite trace_write, last_log. discriminate.
    + simpl snd. rewrite last_log. discriminate.
  - simpl snd. rewrite last_log. discriminate.
Qed.

(** What the model says about a body without a description: the slice of
    line 77 raises, nothing catches it, and the run ends there. *)
Remark fetch_without_description (w : World) (sign : string) :
  post w sign = JsonBody None -> fetch_horoscope w sign = Raise TypeError.
Proof. intros H. unfold fetch_horoscope. rewrite H. reflexivity. Qed.

(** C9, as the code has it: [fetch_horoscope] lets no request exception
    through, it answers a failed request with the apology that names the sign,
    and it returns a description the body carries as it is; the driver skips
    a sign for fetch reasons exactly when the returned text is empty or
    contains "Could not fetch" or "couldn't retrieve", so the apology is
    skipped and so is a fetched description that contains one of the two
    phrases. *)
Theorem fetch_and_skip_policy (w : World) (sign : string) :
  (post w sign = RequestException -> fetch_horoscope w sign = Ok (apology sign))
  /\ (forall d, post w sign = JsonBody (Some d) -> fetch_horoscope w sign = Ok d)
  /\ fetch_failed (apology sign) = true
  /\ (forall text,
        fetch_failed text = true
        <-> text = "" \/ Py.contains "Could not fetch" text = true
            \/ Py.contains "couldn't retrieve" text = true)
  /\ (forall text v st,
        fetch_horoscope w sign = Ok text ->
        (fetch_failed text = true ->
         process_sign w sign v st
         = (Ok v, log (Skipping sign FetchError) (log (Fetch sign) st)))
        /\ (fetch_failed text = false ->
            last (trace (snd (process_sign w sign v st))) ProcessFinished
            <> Skipping sign FetchError))
  /\ (forall d v st,
        post w sign = JsonBody (Some d) ->
        Py.contains "Could not fetch" d = true \/ Py.contains "couldn't retrieve" d = true ->
        process_sign w sign v st
        = (Ok v, log (Skipping sign FetchError) (log (Fetch sign) st))).
Proof.
  assert (Hd : forall d, post w sign = JsonBody (Some d) -> fetch_horoscope w sign = Ok d).
  { intros d H. unfold fetch_horoscope. rewrite H. reflexivity. }
  split; [|split; [exact Hd|split; [apply apology_is_sentinel|split; [apply fetch_failed_iff|split]]]].
  - intros H. unfold fetch_horoscope. rewrite H. reflexivity.
  - intros text v st F. split; intros S.
    + apply (process_sign_skips w sign text); assumption.
    + apply (process_sign_goes_on w sign text); assumption.
  - intros d v st H C. apply (process_sign_skips w sign d); [apply Hd; exact H|].
    apply fetch_failed_iff. right. exact C.
Qed.

Lemma fetch_and_skip_policy_witness :
  fetch_horoscope Examples.sunny "leo" = Ok (apology "leo")
  /\ fetch_horoscope Examples.sunny "aries" = Ok "The stars favour aries."
  /\ process_sign Examples.offline "leo" init_vars (mkState [] [])
     = (Ok init_vars, log (Skipping "leo" FetchError) (log (Fetch "leo") (mkState [] []))).
Proof.
  destruct (fetch_and_skip_policy Examples.sunny "leo") as [A _].
  destruct (fetch_and_skip_policy Examples.sunny "aries") as [_ [B _]].
  destruct (fetch_and_skip_policy Examples.offline "leo") as [_ [_ [S [_ [P _]]]]].
  split; [apply A; reflexivity|].
  split; [apply B; reflexivity|].
  apply (P (apology "leo") init_vars (mkState [] [])); [reflexivity | exact S].
Defined.

(** C9 as worded fails on the word "solely": virgo's description is fetched
    and empty; it contains neither phrase, and the driver skips the sign. *)
Lemma empty_text_counterexample :
  fetch_horoscope Examples.sunny "virgo" = Ok ""
  /\ Py.contains "Could not fetch" "" = false
  /\ Py.contains "couldn't retrieve" "" = false
  /\ process_sign Examples.sunny "virgo" init_vars (mkState [] [])
     = (Ok init_vars, mkState [] [Fetch "virgo"; Skipping "virgo" FetchError]).
Proof. repeat split. Qed.

(* ------------------------------------------------------------------ *)
(** ** The run as a whole *)

Section Runs.

Variable w : World.

Lemma quiet_log (e : Event) (st : State) :
  renders_or_uploads e = false -> quiet st -> quiet (log e st).
Proof.
  intros He Hq. unfold quiet, log. simpl. apply Forall_app. split; auto.
Qed.

Lemma quiet_write (p : string) (st : State) : quiet st -> quiet (write p st).
Proof. unfold quiet. rewrite trace_write. auto. Qed.

Lemma setup_credentials_trace (st : State) : trace (setup_credentials w st) = trace st.
Proof.
  unfold setup_credentials.
  destruct (Py.truthy_opt (GOOGLE_CREDENTIALS_JSON_CONTENT w)),
           (Py.truthy_opt (YOUTUBE_CLIENT_SECRET_JSON_CONTENT w)),
           (YOUTUBE_TOKEN_PICKLE_BASE64 w) as [b64|];
    try destruct (Py.truthy b64 && b64decode w b64);
    rewrite ?trace_write; reflexivity.
Qed.

(** The topic loop neither renders nor uploads, and deletes no file. *)
Lemma process_sign_quiet (sign : string) (v : LoopVars) (st : State) :
  quiet st -> quiet (snd (process_sign w sign v st)).
Proof.
  intros Hq. unfold process_sign.
  assert (Q0 : quiet (log (Fetch sign) st)) by (apply quiet_log; auto).
  destruct (fetch_horoscope w sign) as [raw|e]; [|exact Q0].
  destruct (fetch_failed raw); [apply quiet_log; auto|].
  unfold text_to_speech_google.
  destruct (synthesize_speech w (regenerate_text raw sign)); simpl negb; cbv iota;
    [|apply quiet_log; auto].
  assert (Q1 : quiet (write (audio_file sign) (log (Fetch sign) st)))
    by (apply quiet_write; exact Q0).
  destruct (choose_image sign _); [|apply quiet_log; auto].
  destruct (AudioFileClip (media w) (audio_file sign)); [|exact Q1].
  destruct (create_segment_video _ _ _ _ _ _); apply quiet_log; auto.
Qed.

Lemma process_sign_keeps_files (p sign : string) (v : LoopVars) (st : State) :
  exists_ p st = true -> exists_ p (snd (process_sign w sign v st)) = true.
Proof.
  intros Hp. unfold process_sign.
  assert (P0 : exists_ p (log (Fetch sign) st) = true) by exact Hp.
  destruct (fetch_horoscope w sign) as [raw|e]; [|exact P0].
  destruct (fetch_failed raw); [exact P0|].
  unfold text_to_speech_google.
  destruct (synthesize_speech w (regenerate_text raw sign)); simpl negb; cbv iota;
    [|exact P0].
  assert (P1 : exists_ p (write (audio_file sign) (log (Fetch sign) st)) = true)
    by (apply exists_write; exact P0).
  destruct (choose_image sign _); [|exact P1].
  destruct (AudioFileClip (media w) (audio_file sign)); [|exact P1].
  destruct (create_segment_video _ _ _ _ _ _); exact P1.
Qed.

Lemma topic_loop_quiet (signs : list string) :
  forall v st, quiet st -> quiet (snd (topic_loop w signs v st)).
Proof.
  induction signs as [|sign rest IH]; intros v st Hq; simpl; [exact Hq|].
  pose proof (process_sign_quiet sign v st Hq) as Q.
  destruct (process_sign w sign v st) as [[v1|e] st1]; simpl in *; auto.
Qed.

Lemma topic_loop_keeps_files (p : string) (signs : list string) :
  forall v st, exists_ p st = true -> exists_ p (snd (topic_loop w signs v st)) = true.
Proof.
  induction signs as [|sign rest IH]; intros v st Hp; simpl; [exact Hp|].
  pose proof (process_sign_keeps_files p sign v st Hp) as P.
  destruct (process_sign w sign v st) as [[v1|e] st1]; simpl in *; auto.
Qed.

(** Deleting a file, lines 372-377. *)
Lemma exists_remove_same (p : string) (st : State) : exists_ p (remove p st) = false.
Proof.
  unfold exists_, remove. simpl. induction (files st) as [|q l IH]; simpl; [reflexivity|].
  destruct (String.eqb p q) eqn:E; simpl; [exact IH|]. rewrite E. exact IH.
Qed.

Lemma exists_remove_other (p q : string) (st : State) :
  exists_ p st = false -> exists_ p (remove q st) = false.
Proof.
  unfold exists_, remove. simpl. induction (files st) as [|r l IH]; simpl; [reflexivity|].
  intros H. apply orb_false_iff in H. destruct H as [H1 H2].
  destruct (String.eqb q r); simpl; auto. rewrite H1. auto.
Qed.

(** After the cleanup of lines 371-377 no file made from a set variable
    is left. *)
Lemma cleanup_removes (st : State) :
  let st' := cleanup_credentials w st in
  (Py.truthy_opt (GOOGLE_CREDENTIALS_JSON_CONTENT w) = true ->
   exists_ SERVICE_ACCOUNT_FILE_TEMP st' = false)
  /\ (Py.truthy_opt (YOUTUBE_CLIENT_SECRET_JSON_CONTENT w) = true ->
      exists_ CLIENT_SECRETS_FILE_TEMP st' = false)
  /\ (Py.truthy_opt (YOUTUBE_TOKEN_PICKLE_BASE64 w) = true ->
      exists_ TOKEN_PICKLE_FILE_TEMP st' = false).
Proof.
  assert (drop : forall (flag : bool) p s,
             flag = true ->
             exists_ p (if flag && exists_ p s then remove p s else s) = false).
  { intros flag p s ->. simpl. destruct (exists_ p s) eqn:E;
      [apply exists_remove_same | exact E]. }
  assert (keep : forall (flag : bool) p q s,
             exists_ p s = false ->
             exists_ p (if flag && exists_ q s then remove q s else s) = false).
  { intros flag p q s H. destruct (flag && exists_ q s);
      [apply exists_remove_other; exact H | exact H]. }
  unfold cleanup_credentials. cbv zeta. repeat split; intros H.
  - apply keep, keep, drop, H.
  - apply keep, drop, H.
  - apply drop, H.
Qed.

End Runs.

Lemma fold_write_keeps (p : string) (ps : list string) :
  forall st, exists_ p st = true ->
             exists_ p (fold_left (fun s q => write q s) ps st) = true.
Proof.
  induction ps as [|q ps IH]; intros st H; simpl; [exact H|].
  apply IH, exists_write, H.
Qed.

(** C5, as the code has it: when the topic loop ends with no segment, [main]
    returns normally through line 326 (it raises nothing), having announced
    that no segment was created, and neither the render/write step nor the
    upload step has been attempted: the trace of the run holds no event of
    either. *)
Theorem empty_timeline_returns_early (fuel : nat) (w : World) (v : LoopVars) :
  timeline w = Ok v ->
  all_video_segments v = [] ->
  fst (main fuel w) = Returned NoSegments
  /\ last (trace (snd (main fuel w))) ProcessFinished = NoSegmentsCreated
  /\ (forall e, In e (trace (snd (main fuel w))) -> renders_or_uploads e = false).
Proof.
  destruct (Py.truthy_opt (GOOGLE_CREDENTIALS_JSON_CONTENT w)) eqn:G.
  { unfold timeline. rewrite (run_loop_after_line_49 w G). intros T. discriminate T. }
  unfold timeline. rewrite (main_without_line_49 fuel w G), (run_loop_without_line_49 w G).
  unfold run.
  pose proof (topic_loop_quiet w ZODIAC_SIGNS init_vars
                (setup_credentials w (mkState (disk w) []))) as Q.
  destruct (topic_loop w ZODIAC_SIGNS init_vars _) as [r st]. simpl in *.
  intros -> E. rewrite E. simpl. split; [reflexivity|]. split; [apply last_last|].
  intros e He. apply in_app_or in He. destruct He as [He|[<-|[]]]; [|reflexivity].
  assert (Q0 : quiet (setup_credentials w (mkState (disk w) []))).
  { unfold quiet. rewrite setup_credentials_trace. constructor. }
  specialize (Q Q0). unfold quiet in Q. rewrite Forall_forall in Q. apply Q, He.
Qed.

Lemma empty_timeline_returns_early_witness :
  fst (main 5 Examples.offline) = Returned NoSegments
  /\ last (trace (snd (main 5 Examples.offline))) ProcessFinished = NoSegmentsCreated
  /\ (forall e, In e (trace (snd (main 5 Examples.offline))) -> renders_or_uploads e = false).
Proof.
  apply (empty_timeline_returns_early 5 Examples.offline init_vars).
  - vm_compute. reflexivity.
  - reflexivity.
Defined.

(** C5 as worded fails on "raises": with the horoscope service out of reach
    every sign is skipped, no segment is assembled, and [main] returns; no
    exception leaves it. *)
Lemma empty_timeline_counterexample :
  timeline Examples.offline = Ok init_vars
  /\ all_video_segments init_vars = []
  /\ fst (main 5 Examples.offline) = Returned NoSegments
  /\ ~ exists e, fst (main 5 Examples.offline) = Raised e.
Proof.
  split; [vm_compute; reflexivity|]. split; [reflexivity|].
  split; [vm_compute; reflexivity|].
  intros [e H]. vm_compute in H. discriminate H.
Qed.

(** Leaving [main] through line 326 or line 346 leaves every file of the
    credential set-up in place. *)
Lemma early_return_skips_cleanup (fuel : nat) (w : World) (p : string) :
  fst (main fuel w) = Returned NoSegments \/ fst (main fuel w) = Returned WriteFailed ->
  exists_ p (setup_credentials w (mkState (disk w) [])) = true ->
  exists_ p (snd (main fuel w)) = true.
Proof.
  intros Hexit Hp. revert Hexit.
  destruct (Py.truthy_opt (GOOGLE_CREDENTIALS_JSON_CONTENT w)) eqn:G.
  { rewrite (main_after_line_49 fuel w G). intros [H|H]; discriminate H. }
  rewrite (main_without_line_49 fuel w G). unfold run.
  pose proof (topic_loop_keeps_files w p ZODIAC_SIGNS init_vars _ Hp) as K.
  destruct (topic_loop w ZODIAC_SIGNS init_vars _) as [[v|e] st]; simpl in *.
  - destruct (all_video_segments v) as [|s0 segs]; simpl; [intros _; exact K|].
    unfold write_final_video.
    destruct (write_videofile w); cbn [fst snd].
    + unfold upload_stage.
      destruct (get_youtube_service w _) as [[svc|e] st1]; simpl.
      * match goal with
        | |- context [match ?u with pair _ _ => _ end] => destruct u as [[id|] st2]
        end; simpl; intros [H|H]; discriminate H.
      * intros [H|H]; discriminate H.
    + intros _. apply fold_write_keeps. exact K.
  - intros [H|H]; discriminate H.
Qed.

(** Leaving [main] at its end has removed every credential file made from
    a set variable. *)
Lemma normal_return_cleans_up (fuel : nat) (w : World) :
  fst (main fuel w) = Returned EndOfMain ->
  (Py.truthy_opt (GOOGLE_CREDENTIALS_JSON_CONTENT w) = true ->
   exists_ SERVICE_ACCOUNT_FILE_TEMP (snd (main fuel w)) = false)
  /\ (Py.truthy_opt (YOUTUBE_CLIENT_SECRET_JSON_CONTENT w) = true ->
      exists_ CLIENT_SECRETS_FILE_TEMP (snd (main fuel w)) = false)
  /\ (Py.truthy_opt (YOUTUBE_TOKEN_PICKLE_BASE64 w) = true ->
      exists_ TOKEN_PICKLE_FILE_TEMP (snd (main fuel w)) = false).
Proof.
  destruct (environ_cases w) as [[G _]|[G _]].
  2:{ rewrite (main_after_line_49 fuel w G). intros H. discriminate H. }
  rewrite (main_without_line_49 fuel w G). unfold run.
  destruct (topic_loop w ZODIAC_SIGNS init_vars _) as [[v|e] st]; simpl;
    [|discriminate].
  destruct (all_video_segments v) as [|s0 segs]; simpl; [discriminate|].
  unfold write_final_video.
  destruct (write_videofile w); cbn [fst snd]; [|discriminate].
  unfold upload_stage.
  destruct (get_youtube_service w _) as [[svc|e] st1]; simpl; [|discriminate].
  match goal with
  | |- context [match ?u with pair _ _ => _ end] => destruct u as [[id|] st2]
  end; simpl; [|discriminate].
  intros _. apply (cleanup_removes w st2).
Qed.

(** C2 on three runs in which line 49 is not run (the first variable is not
    set), so that the run gets past its first request.  The service out of
    reach, client secrets and token given by their variables: [main] returns
    at line 326, and the two files made from the variables are still on
    disk.  The same variables and the encoder failing: [main] returns at
    line 346, and the two files are still on disk.  Everything working,
    client secrets given by their variable: [main] reaches its end, and the
    file made from it is gone.  None of these files was on disk before its
    run. *)
Theorem credentials_survive_early_returns :
  (GOOGLE_CREDENTIALS_JSON_CONTENT Examples.offline = None
   /\ Py.truthy_opt (YOUTUBE_CLIENT_SECRET_JSON_CONTENT Examples.offline) = true
   /\ Py.truthy_opt (YOUTUBE_TOKEN_PICKLE_BASE64 Examples.offline) = true
   /\ existsb (String.eqb CLIENT_SECRETS_FILE_TEMP) (disk Examples.offline) = false
   /\ existsb (String.eqb TOKEN_PICKLE_FILE_TEMP) (disk Examples.offline) = false
   /\ fst (main 5 Examples.offline) = Returned NoSegments
   /\ exists_ CLIENT_SECRETS_FILE_TEMP (snd (main 5 Examples.offline)) = true
   /\ exists_ TOKEN_PICKLE_FILE_TEMP (snd (main 5 Examples.offline)) = true)
  /\ (GOOGLE_CREDENTIALS_JSON_CONTENT Examples.disk_full = None
      /\ Py.truthy_opt (YOUTUBE_CLIENT_SECRET_JSON_CONTENT Examples.disk_full) = true
      /\ Py.truthy_opt (YOUTUBE_TOKEN_PICKLE_BASE64 Examples.disk_full) = true
      /\ existsb (String.eqb CLIENT_SECRETS_FILE_TEMP) (disk Examples.disk_full) = false
      /\ existsb (String.eqb TOKEN_PICKLE_FILE_TEMP) (disk Examples.disk_full) = false
      /\ fst (main 5 Examples.disk_full) = Returned WriteFailed
      /\ exists_ CLIENT_SECRETS_FILE_TEMP (snd (main 5 Examples.disk_full)) = true
      /\ exists_ TOKEN_PICKLE_FILE_TEMP (snd (main 5 Examples.disk_full)) = true)
  /\ (GOOGLE_CREDENTIALS_JSON_CONTENT Examples.sunny = None
      /\ Py.truthy_opt (YOUTUBE_CLIENT_SECRET_JSON_CONTENT Examples.sunny) = true
      /\ existsb (String.eqb CLIENT_SECRETS_FILE_TEMP) (disk Examples.sunny) = false
      /\ exists_ CLIENT_SECRETS_FILE_TEMP
           (setup_credentials Examples.sunny (mkState (disk Examples.sunny) [])) = true
      /\ fst (main 5 Examples.sunny) = Returned EndOfMain
      /\ exists_ CLIENT_SECRETS_FILE_TEMP (snd (main 5 Examples.sunny)) = false).
Proof.
  split; [vm_compute; repeat split|].
  split; [vm_compute; repeat split|].
  vm_compute; repeat split.
Qed.

(** With the first variable set the run does not get that far: line 49
    makes the first request raise, [main] ends with that exception, and the
    service account file is left on disk as well. *)
Example credentials_survive_line_49 :
  fst (main 5 Examples.crashing) = Raised AttributeError
  /\ trace (snd (main 5 Examples.crashing)) = [Fetch "aries"]
  /\ exists_ SERVICE_ACCOUNT_FILE_TEMP (snd (main 5 Examples.crashing)) = true
  /\ exists_ CLIENT_SECRETS_FILE_TEMP (snd (main 5 Examples.crashing)) = true.
Proof. vm_compute. repeat split. Qed.

(* ------------------------------------------------------------------ *)
(** ** More on fetching *)

(** What [fetch_horoscope] can return: the apology when the request failed,
    or the description exactly as the service sent it; the default of line 78
    is never put in its place, because a body without a description does not
    get past line 77, where the slice raises [TypeError]; and whatever lines
    74-77 raise that is no [RequestException] leaves the function. *)
Theorem fetch_outcomes (w : World) (sign : string) :
  (forall text,
      fetch_horoscope w sign = Ok text ->
      (post w sign = RequestException /\ text = apology sign)
      \/ post w sign = JsonBody (Some text))
  /\ (post w sign = JsonBody None -> fetch_horoscope w sign = Raise TypeError)
  /\ (forall e, post w sign = OtherException e -> fetch_horoscope w sign = Raise e).
Proof.
  unfold fetch_horoscope. destruct (post w sign) as [|[d|]|e0]; simpl;
    (split; [|split]).
  - intros text [= <-]. left. split; reflexivity.
  - intros H. discriminate H.
  - intros e H. discriminate H.
  - intros text [= <-]. right. reflexivity.
  - intros H. discriminate H.
  - intros e H. discriminate H.
  - intros text H. discriminate H.
  - intros _. reflexivity.
  - intros e H. discriminate H.
  - intros text H. discriminate H.
  - intros H. discriminate H.
  - intros e [= <-]. reflexivity.
Qed.

Lemma fetch_outcomes_witness :
  fetch_horoscope Examples.malformed "gemini" = Raise TypeError
  /\ fetch_horoscope (environ_after_setup Examples.crashing) "aries" = Raise AttributeError.
Proof.
  split.
  - apply (proj1 (proj2 (fetch_outcomes Examples.malformed "gemini"))). reflexivity.
  - apply (proj2 (proj2 (fetch_outcomes (environ_after_setup Examples.crashing) "aries"))
             AttributeError).
    reflexivity.
Defined.

Lemma topic_loop_raises (w : World) (sign : string) (signs : list string) :
  In sign signs ->
  post w sign = JsonBody None ->
  forall v st, exists e, fst (topic_loop w signs v st) = Raise e.
Proof.
  intros Hin Hp. induction signs as [|s rest IH]; [destruct Hin|].
  intros v st. simpl.
  destruct (process_sign w s v st) as [[v1|e1] st1] eqn:P.
  - destruct Hin as [->|Hin].
    + exfalso. unfold process_sign, fetch_horoscope in P. rewrite Hp in P.
      simpl in P. discriminate P.
    + apply IH. exact Hin.
  - exists e1. reflexivity.
Qed.

(** One answer without a description ends the whole run, not just its
    topic: [main] raises, nothing has been rendered or uploaded, and every
    file of the credential set-up is still on disk. *)
Theorem missing_description_ends_the_run (fuel : nat) (w : World) (sign : string) :
  In sign ZODIAC_SIGNS ->
  post w sign = JsonBody None ->
  (exists e, fst (main fuel w) = Raised e)
  /\ quiet (snd (main fuel w))
  /\ (forall p, exists_ p (setup_credentials w (mkState (disk w) [])) = true ->
                exists_ p (snd (main fuel w)) = true).
Proof.
  intros Hin Hp.
  destruct (Py.truthy_opt (GOOGLE_CREDENTIALS_JSON_CONTENT w)) eqn:G.
  { rewrite (main_after_line_49 fuel w G). cbn [fst snd].
    split; [exists AttributeError; reflexivity|]. split.
    - apply quiet_log; [reflexivity|]. unfold quiet.
      rewrite setup_credentials_trace. constructor.
    - intros p H. exact H. }
  rewrite (main_without_line_49 fuel w G). unfold run.
  destruct (topic_loop_raises w sign ZODIAC_SIGNS Hin Hp init_vars
              (setup_credentials w (mkState (disk w) []))) as [e He].
  pose proof (topic_loop_quiet w ZODIAC_SIGNS init_vars
                (setup_credentials w (mkState (disk w) []))) as Q.
  pose proof (fun p => topic_loop_keeps_files w p ZODIAC_SIGNS init_vars
                (setup_credentials w (mkState (disk w) []))) as K.
  destruct (topic_loop w ZODIAC_SIGNS init_vars _) as [r st]. simpl in He. subst r.
  simpl in *. split; [exists e; reflexivity|]. split.
  - apply Q. unfold quiet. rewrite setup_credentials_trace. constructor.
  - exact K.
Qed.

Lemma missing_description_ends_the_run_witness :
  (exists e, fst (main 5 Examples.malformed) = Raised e)
  /\ quiet (snd (main 5 Examples.malformed))
  /\ (forall p,
        exists_ p (setup_credentials Examples.malformed
                     (mkState (disk Examples.malformed) [])) = true ->
        exists_ p (snd (main 5 Examples.malformed)) = true).
Proof.
  apply (missing_description_ends_the_run 5 Examples.malformed "gemini").
  - simpl. right. right. left. reflexivity.
  - reflexivity.
Defined.

Lemma prefix_iff (a b : string) :
  String.prefix a b = true <-> exists post, b = a ++ post.
Proof.
  revert b. induction a as [|c a IH]; intros b.
  - split; [intros _; exists b; reflexivity | intros _; destruct b; reflexivity].
  - destruct b as [|c' b]; simpl.
    + split; [discriminate | intros [post H]; discriminate H].
    + destruct (ascii_dec c c') as [->|ne].
      * split.
        -- intros H. apply IH in H. destruct H as [post H]. exists post.
           rewrite H. reflexivity.
        -- intros [post H]. injection H as H. apply IH. exists post. exact H.
      * split; [discriminate|]. intros [post H]. injection H as H1 _. congruence.
Qed.

Lemma contains_cons (needle : string) (c : ascii) (hay : string) :
  Py.contains needle (String c hay)
  = if String.prefix needle (String c hay) then true else Py.contains needle hay.
Proof. reflexivity. Qed.

Lemma contains_iff (needle hay : string) :
  Py.contains needle hay = true <-> exists pre post, hay = pre ++ needle ++ post.
Proof.
  split.
  - induction hay as [|c hay IH].
    + destruct needle as [|c n]; simpl; [|intros H; discriminate H].
      intros _. exists "", "". reflexivity.
    + rewrite contains_cons.
      destruct (String.prefix needle (String c hay)) eqn:P.
      * intros _. apply prefix_iff in P. destruct P as [post P].
        exists "", post. exact P.
      * intros H. destruct (IH H) as [pre [post E]].
        exists (String c pre), post. rewrite E. reflexivity.
  - intros [pre [post ->]]. apply contains_later, contains_here.
Qed.

(** The skip test of line 264 in terms of the text itself: a fetched text
    makes the driver skip its sign exactly when it is empty or has the form
    [pre ++ phrase ++ post] for one of the two phrases. *)
Theorem skip_test_decomposition (text : string) :
  fetch_failed text = true
  <-> text = ""
      \/ (exists pre post, text = pre ++ "Could not fetch" ++ post)
      \/ (exists pre post, text = pre ++ "couldn't retrieve" ++ post).
Proof. rewrite fetch_failed_iff, !contains_iff. reflexivity. Qed.

(* ------------------------------------------------------------------ *)
(** ** More on the segment builder *)

(** [create_segment_video] returns a segment exactly when the image and the
    audio load, whatever the planned duration and whether or not the texts
    can be rendered; the segment has the three layers image, title and
    caption when both texts render, and the image alone otherwise. *)
Theorem segment_built_iff_files_load
    (m : Media) (sign_name horoscope_text image_path audio_path : string) (sd : Q) :
  ((exists seg,
       create_segment_video m sign_name horoscope_text image_path audio_path sd = Some seg)
   <-> ImageClip m image_path = true /\ exists d, AudioFileClip m audio_path = Some d)
  /\ (forall seg,
        create_segment_video m sign_name horoscope_text image_path audio_path sd = Some seg ->
        if TextClip m horoscope_text && TextClip m (Py.capitalize sign_name)
        then layers seg = [Image image_path sd; Text (Py.capitalize sign_name) sd;
                           Text horoscope_text sd]
        else exists d, AudioFileClip m audio_path = Some d
                       /\ layers seg = [Image image_path d]).
Proof.
  split; [apply build_succeeds_iff|].
  intros seg. unfold create_segment_video, segment_body, segment_fallback.
  destruct (TextClip m horoscope_text); simpl.
  - destruct (TextClip m (Py.capitalize sign_name)); simpl.
    + destruct (ImageClip m image_path); simpl.
      * destruct (AudioFileClip m audio_path) as [d|]; simpl; [|discriminate].
        intros [= <-]. reflexivity.
      * destruct (AudioFileClip m audio_path) as [d|]; simpl; discriminate.
    + destruct (AudioFileClip m audio_path) as [d|]; simpl; [|discriminate].
      destruct (ImageClip m image_path); simpl; [|discriminate].
      intros [= <-]. exists d. split; reflexivity.
  - destruct (AudioFileClip m audio_path) as [d|]; simpl; [|discriminate].
    destruct (ImageClip m image_path); simpl; [|discriminate].
    intros [= <-]. exists d. split; reflexivity.
Qed.

(** Lines 135-136: when the texts render and the audio is longer than the
    planned duration [sd] (not negative), the audio is cut to [sd] and the
    segment lasts [sd]. *)
Theorem long_audio_is_cut
    (m : Media) (sign_name horoscope_text image_path audio_path : string) (d sd : Q) :
  TextClip m horoscope_text = true ->
  TextClip m (Py.capitalize sign_name) = true ->
  ImageClip m image_path = true ->
  AudioFileClip m audio_path = Some d ->
  0 <= sd -> sd < d ->
  exists seg a,
    create_segment_video m sign_name horoscope_text image_path audio_path sd = Some seg
    /\ audio seg = Some a
    /\ a_filename a = audio_path
    /\ a_duration a == sd
    /\ duration seg == sd.
Proof.
  intros Ht Hs Hi Ha H0 Hlt.
  unfold create_segment_video, segment_body. rewrite Ht, Hs, Hi, Ha. simpl.
  assert (L : audio_is_longer d sd = true).
  { unfold audio_is_longer, Qgtb. destruct (Qle_bool d sd) eqn:E; [|reflexivity].
    apply Qle_bool_iff in E. lra. }
  rewrite L. unfold subclip0, Qltb.
  assert (N : Qle_bool 0 sd = true) by (apply Qle_bool_iff; exact H0).
  rewrite N. cbn [negb].
  eexists _, _. split; [reflexivity|].
  cbn [audio a_filename a_duration duration set_audio set_duration].
  split; [reflexivity|]. split; [reflexivity|].
  split; cbn [a_duration]; ring.
Qed.

Lemma long_audio_is_cut_witness :
  exists seg a,
    create_segment_video Examples.studio "aries" "The stars favour aries."
      "images/aries.jpg" "output/aries_horoscope.mp3" 10 = Some seg
    /\ audio seg = Some a
    /\ a_filename a = "output/aries_horoscope.mp3"
    /\ a_duration a == 10
    /\ duration seg == 10.
Proof.
  apply (long_audio_is_cut Examples.studio "aries" "The stars favour aries."
           "images/aries.jpg" "output/aries_horoscope.mp3" (123 # 10) 10);
    try reflexivity.
  - discriminate.
Defined.

(* ------------------------------------------------------------------ *)
(** ** More on the topic loop *)

Lemma fetched_log (e : Event) (st : State) :
  fetched (trace (log e st))
  = (fetched (trace st) ++ match e with Fetch s => [s] | _ => [] end)%list.
Proof. unfold fetched, log. simpl. rewrite flat_map_app. simpl. rewrite app_nil_r. reflexivity. Qed.

Lemma verdicts_log (e : Event) (st : State) :
  verdicts (trace (log e st))
  = (verdicts (trace st)
     ++ match e with
        | Skipping s _ | SegmentFailed s | SegmentAdded s => [s]
        | _ => []
        end)%list.
Proof. unfold verdicts, log. simpl. rewrite flat_map_app. simpl. rewrite app_nil_r. reflexivity. Qed.

(** One turn of the loop asks the service once; it settles the sign unless
    an exception ends the turn. *)
Lemma process_sign_trace (w : World) (sign : string) (v : LoopVars) (st : State) :
  fetched (trace (snd (process_sign w sign v st))) = (fetched (trace st) ++ [sign])%list
  /\ match fst (process_sign w sign v st) with
     | Ok _ => verdicts (trace (snd (process_sign w sign v st)))
               = (verdicts (trace st) ++ [sign])%list
     | Raise _ => verdicts (trace (snd (process_sign w sign v st))) = verdicts (trace st)
     end.
Proof.
  unfold process_sign.
  destruct (fetch_horoscope w sign) as [raw|e]; cbn [fst snd].
  2:{ rewrite fetched_log, verdicts_log, app_nil_r. split; reflexivity. }
  destruct (fetch_failed raw); cbn [fst snd].
  { rewrite !fetched_log, !verdicts_log, !app_nil_r. split; reflexivity. }
  unfold text_to_speech_google.
  destruct (synthesize_speech w (regenerate_text raw sign)); cbn [fst snd negb].
  2:{ rewrite !fetched_log, !verdicts_log, !app_nil_r. split; reflexivity. }
  destruct (choose_image sign _); cbn [fst snd].
  2:{ rewrite !fetched_log, !verdicts_log, trace_write, !fetched_log, !verdicts_log,
        !app_nil_r. split; reflexivity. }
  destruct (AudioFileClip (media w) (audio_file sign)); cbn [fst snd].
  2:{ rewrite trace_write, !fetched_log, !verdicts_log, !app_nil_r. split; reflexivity. }
  destruct (create_segment_video _ _ _ _ _ _); cbn [fst snd];
    rewrite !fetched_log, !verdicts_log, trace_write, !fetched_log, !verdicts_log,
      !app_nil_r; split; reflexivity.
Qed.

(** Skip and continue: a topic loop that ends without an exception has asked
    the service about every sign once, in list order, and has settled every
    sign once, in list order, whatever was skipped on the way; one that an
    exception ends has asked about the signs up to the failing one only. *)
Theorem every_sign_is_tried_once (w : World) (signs : list string) :
  forall v st,
    match fst (topic_loop w signs v st) with
    | Ok _ =>
        fetched (trace (snd (topic_loop w signs v st))) = (fetched (trace st) ++ signs)%list
        /\ verdicts (trace (snd (topic_loop w signs v st)))
           = (verdicts (trace st) ++ signs)%list
    | Raise _ =>
        exists k, (k < List.length signs)%nat
          /\ fetched (trace (snd (topic_loop w signs v st)))
             = (fetched (trace st) ++ firstn (S k) signs)%list
          /\ verdicts (trace (snd (topic_loop w signs v st)))
             = (verdicts (trace st) ++ firstn k signs)%list
    end.
Proof.
  induction signs as [|sign rest IH]; intros v st; simpl.
  - rewrite !app_nil_r. split; reflexivity.
  - destruct (process_sign_trace w sign v st) as [F V].
    destruct (process_sign w sign v st) as [[v1|e] st1]; simpl in *.
    + specialize (IH v1 st1).
      destruct (fst (topic_loop w rest v1 st1)).
      * destruct IH as [F' V']. rewrite F', V', F, V, <- !app_assoc. split; reflexivity.
      * destruct IH as [k [Hk [F' V']]]. exists (S k). split; [lia|].
        rewrite F', V', F, V, <- !app_assoc. split; reflexivity.
    + exists O. split; [lia|]. rewrite F, V, app_nil_r. split; reflexivity.
Qed.

Lemma image_is_not_audio (sign sign' : string) : image_file sign <> audio_file sign'.
Proof. unfold image_file, audio_file, join. simpl. discriminate. Qed.

Lemma default_image_is_not_audio (sign : string) : generic_image_path <> audio_file sign.
Proof. unfold generic_image_path, audio_file, join. simpl. discriminate. Qed.

Lemma exists_write_same (p : string) (st : State) : exists_ p (write p st) = true.
Proof.
  unfold write. destruct (exists_ p st) eqn:E; [exact E|].
  unfold exists_. simpl. rewrite existsb_app. simpl. rewrite String.eqb_refl.
  rewrite orb_true_r. reflexivity.
Qed.

Lemma exists_write_other (p q : string) (st : State) :
  p <> q -> exists_ p (write q st) = exists_ p st.
Proof.
  intros ne. unfold write. destruct (exists_ q st); [reflexivity|].
  unfold exists_. simpl. rewrite existsb_app. simpl.
  apply String.eqb_neq in ne. rewrite ne. rewrite !orb_false_r. reflexivity.
Qed.

(** The image is looked for only after the speech has been synthesised: a
    sign with neither its own image nor the default one is skipped, but its
    audio file has been written and stays on disk. *)
Theorem missing_image_found_after_synthesis
    (w : World) (sign text : string) (v : LoopVars) (st : State) :
  fetch_horoscope w sign = Ok text ->
  fetch_failed text = false ->
  synthesize_speech w (regenerate_text text sign) = true ->
  exists_ (image_file sign) st = false ->
  exists_ generic_image_path st = false ->
  exists st',
    process_sign w sign v st = (Ok v, st')
    /\ last (trace st') ProcessFinished = Skipping sign ImageMissing
    /\ exists_ (audio_file sign) st' = true.
Proof.
  intros Hf Hs Ht Hi Hd. unfold process_sign. rewrite Hf, Hs.
  unfold text_to_speech_google. rewrite Ht. simpl negb. cbv iota.
  unfold choose_image.
  rewrite (exists_write_other _ _ _ (image_is_not_audio sign sign)).
  rewrite (exists_write_other _ _ _ (default_image_is_not_audio sign)).
  change (exists_ (image_file sign) (log (Fetch sign) st)) with (exists_ (image_file sign) st).
  change (exists_ generic_image_path (log (Fetch sign) st))
    with (exists_ generic_image_path st).
  rewrite Hi, Hd. eexists. split; [reflexivity|]. split.
  - apply last_log.
  - change (exists_ (audio_file sign)
              (write (audio_file sign) (log (Fetch sign) st)) = true).
    apply exists_write_same.
Qed.

Lemma missing_image_found_after_synthesis_witness :
  exists st',
    process_sign Examples.sunny "aries" init_vars (mkState [] [])
    = (Ok init_vars, st')
    /\ last (trace st') ProcessFinished = Skipping "aries" ImageMissing
    /\ exists_ (audio_file "aries") st' = true.
Proof.
  apply (missing_image_found_after_synthesis Examples.sunny "aries"
           "The stars favour aries." init_vars (mkState [] [])); reflexivity.
Defined.

(* ------------------------------------------------------------------ *)
(** ** More on authentication *)

Lemma build_service_state (w : World) (c : Credentials) (st : State) :
  snd (build_service w c st) = st.
Proof. unfold build_service. destruct (build w); reflexivity. Qed.

Lemma build_service_result (w : World) (c : Credentials) (st : State) (r : option Credentials)
    (st' : State) :
  build_service w c st = (Ok r, st') -> r = Some c /\ st' = st.
Proof.
  unfold build_service. destruct (build w); [discriminate|].
  intros [= <- <-]. split; reflexivity.
Qed.

(** The token file is the only file [get_youtube_service] writes. *)
Lemma get_youtube_service_state (w : World) (st : State) :
  snd (get_youtube_service w st) = log GetService st
  \/ snd (get_youtube_service w st) = write TOKEN_PICKLE_FILE_TEMP (log GetService st).
Proof.
  assert (save : forall c,
             snd (match pickle_dump w with
                  | Some e => (Raise e, write TOKEN_PICKLE_FILE_TEMP (log GetService st))
                  | None => build_service w c (write TOKEN_PICKLE_FILE_TEMP (log GetService st))
                  end)
             = write TOKEN_PICKLE_FILE_TEMP (log GetService st)).
  { intros c. destruct (pickle_dump w); [reflexivity | apply build_service_state]. }
  unfold get_youtube_service.
  destruct (exists_ TOKEN_PICKLE_FILE_TEMP (log GetService st)).
  - destruct (pickle_load w) as [c|e]; [|left; reflexivity].
    destruct (valid c); [left; apply build_service_state|].
    destruct (expired c && refresh_token c).
    + destruct (refresh w); [right; apply save|].
      destruct (negb (exists_ CLIENT_SECRETS_FILE_TEMP (log GetService st)));
        [left; reflexivity|].
      destruct (run_console w); [right; apply save | left; reflexivity].
    + right. apply save.
  - cbn [valid]. destruct (negb (exists_ CLIENT_SECRETS_FILE_TEMP (log GetService st)));
      [left; reflexivity|].
    destruct (run_console w); [right; apply save | left; reflexivity].
Qed.

(** What saving the credentials and building the service on them gives. *)
Lemma save_and_build (w : World) (c : Credentials) (st : State) (r : option Credentials)
    (st' : State) :
  match pickle_dump w with
  | Some e => (Raise e, write TOKEN_PICKLE_FILE_TEMP st)
  | None => build_service w c (write TOKEN_PICKLE_FILE_TEMP st)
  end = (Ok r, st') ->
  r = Some c /\ st' = write TOKEN_PICKLE_FILE_TEMP st.
Proof. destruct (pickle_dump w); [discriminate | apply build_service_result]. Qed.

(** [get_youtube_service] and the disk.  A service is only ever returned
    with the token file on disk (read from it, or saved to it on the way).
    [None] comes back without any file written, and only when the client
    secrets are missing or the interactive flow failed.  And stored
    credentials that are neither valid nor refreshable are neither refreshed
    nor replaced: when saving them and building the service raise nothing,
    the service is built on them as they are. *)
Theorem service_comes_with_token_file (w : World) (st : State) :
  (forall c st',
      get_youtube_service w st = (Ok (Some c), st') ->
      exists_ TOKEN_PICKLE_FILE_TEMP st' = true)
  /\ (forall st',
        get_youtube_service w st = (Ok None, st') ->
        files st' = files st
        /\ (exists_ CLIENT_SECRETS_FILE_TEMP st = false \/ run_console w = None))
  /\ (forall c,
        exists_ TOKEN_PICKLE_FILE_TEMP st = true ->
        pickle_load w = Ok c ->
        valid c = false ->
        expired c && refresh_token c = false ->
        pickle_dump w = None ->
        build w = None ->
        fst (get_youtube_service w st) = Ok (Some c)).
Proof.
  unfold get_youtube_service.
  change (exists_ TOKEN_PICKLE_FILE_TEMP (log GetService st))
    with (exists_ TOKEN_PICKLE_FILE_TEMP st).
  change (exists_ CLIENT_SECRETS_FILE_TEMP (log GetService st))
    with (exists_ CLIENT_SECRETS_FILE_TEMP st).
  split; [|split].
  - intros c st'.
    assert (saved : forall c0,
               match pickle_dump w with
               | Some e => (Raise e, write TOKEN_PICKLE_FILE_TEMP (log GetService st))
               | None => build_service w c0 (write TOKEN_PICKLE_FILE_TEMP (log GetService st))
               end = (Ok (Some c), st') ->
               exists_ TOKEN_PICKLE_FILE_TEMP st' = true).
    { intros c0 H. destruct (save_and_build _ _ _ _ _ H) as [_ ->].
      apply exists_write_same. }
    destruct (exists_ TOKEN_PICKLE_FILE_TEMP st) eqn:T.
    + destruct (pickle_load w) as [c0|e]; [|discriminate].
      destruct (valid c0).
      { intros H. destruct (build_service_result _ _ _ _ _ H) as [_ ->]. exact T. }
      destruct (expired c0 && refresh_token c0).
      * destruct (refresh w); [apply saved|].
        destruct (negb (exists_ CLIENT_SECRETS_FILE_TEMP st)); [discriminate|].
        destruct (run_console w); [apply saved | discriminate].
      * apply saved.
    + cbn [valid]. destruct (negb (exists_ CLIENT_SECRETS_FILE_TEMP st)); [discriminate|].
      destruct (run_console w); [apply saved | discriminate].
  - intros st'.
    assert (saved : forall c0,
               match pickle_dump w with
               | Some e => (Raise e, write TOKEN_PICKLE_FILE_TEMP (log GetService st))
               | None => build_service w c0 (write TOKEN_PICKLE_FILE_TEMP (log GetService st))
               end <> (Ok None, st')).
    { intros c0 H. destruct (save_and_build _ _ _ _ _ H) as [E _]. discriminate E. }
    destruct (exists_ TOKEN_PICKLE_FILE_TEMP st).
    + destruct (pickle_load w) as [c0|e]; [|discriminate].
      destruct (valid c0).
      { intros H. destruct (build_service_result _ _ _ _ _ H) as [E _]. discriminate E. }
      destruct (expired c0 && refresh_token c0).
      * destruct (refresh w); [intros H; destruct (saved _ H)|].
        destruct (exists_ CLIENT_SECRETS_FILE_TEMP st); cbn [negb].
        -- destruct (run_console w); [intros H; destruct (saved _ H)|].
           intros [= <-]. split; [reflexivity | right; reflexivity].
        -- intros [= <-]. split; [reflexivity | left; reflexivity].
      * intros H; destruct (saved _ H).
    + cbn [valid]. destruct (exists_ CLIENT_SECRETS_FILE_TEMP st); cbn [negb].
      * destruct (run_console w); [intros H; destruct (saved _ H)|].
        intros [= <-]. split; [reflexivity | right; reflexivity].
      * intros [= <-]. split; [reflexivity | left; reflexivity].
  - intros c T L V R D B. rewrite T, L, V, R, D. unfold build_service. rewrite B.
    reflexivity.
Qed.

Lemma service_comes_with_token_file_witness :
  fst (get_youtube_service Examples.stale_token
         (mkState (disk Examples.stale_token) []))
  = Ok (Some (mkCreds false false false)).
Proof.
  apply (proj2 (proj2 (service_comes_with_token_file Examples.stale_token
                         (mkState (disk Examples.stale_token) [])))
           (mkCreds false false false)); reflexivity.
Defined.

(* ------------------------------------------------------------------ *)
(** ** More on the upload loop *)

(** The first [n] calls bringing no response, the loop is after them where
    it would be had it started at call [k + n], [n] calls further. *)
Lemma chunk_loop_skip (req : nat -> ChunkResult) (n : nat) :
  forall k fuel st,
    (forall j, (j < n)%nat -> exists s, req (k + j)%nat = Chunk s None) ->
    exists st1,
      chunk_loop (n + fuel) req k st = chunk_loop fuel req (k + n) st1
      /\ files st1 = files st
      /\ calls (trace st1) = (calls (trace st) + n)%nat
      /\ completions (trace st1) = completions (trace st).
Proof.
  induction n as [|n IH]; intros k fuel st Hp.
  - exists st. rewrite !Nat.add_0_r. repeat split; reflexivity.
  - destruct (Hp O) as [s Hs]; [lia|]. rewrite Nat.add_0_r in Hs.
    cbn [Nat.add chunk_loop]. rewrite Hs.
    set (st0 := match s with
                | Some s0 => log (UploadedPercent (percent s0)) (log (NextChunk k) st)
                | None => log (NextChunk k) st
                end).
    assert (F0 : files st0 = files st) by (destruct s; reflexivity).
    assert (C0 : calls (trace st0) = (calls (trace st) + 1)%nat)
      by (destruct s; unfold st0; repeat rewrite calls_log; simpl; lia).
    assert (D0 : completions (trace st0) = completions (trace st))
      by (destruct s; unfold st0; repeat rewrite completions_log; simpl; lia).
    destruct (IH (S k) fuel st0) as [st1 [E [F [C D]]]].
    + intros j Hj. destruct (Hp (S j)) as [s' Hs']; [lia|].
      exists s'. rewrite <- Hs'. f_equal. lia.
    + exists st1. replace (k + S n)%nat with (S k + n)%nat by lia.
      split; [exact E|]. split; [congruence|]. split; lia.
Qed.

(** An exception of [next_chunk] is not retried: after [n] calls without a
    response and one that raises, [upload_video_to_youtube] returns [None],
    having made exactly [n + 1] calls and announced no upload. *)
Theorem upload_gives_up_on_exception
    (w : World) (n : nat) (file_path title description : string) (st : State) :
  (forall k, (k < n)%nat -> exists s, next_chunk w k = Chunk s None) ->
  next_chunk w n = ChunkRaises ->
  exists_ file_path st = true ->
  forall fuel, (n < fuel)%nat ->
    exists st',
      upload_video_to_youtube fuel w file_path title description st
      = (UploadReturned None, st')
      /\ calls (trace st') = (calls (trace st) + n + 1)%nat
      /\ completions (trace st') = completions (trace st)
      /\ last (trace st') ProcessFinished = UploadError.
Proof.
  intros Hp Hr Hex fuel Hf. unfold upload_video_to_youtube.
  change (exists_ file_path (log (Upload file_path title description) st))
    with (exists_ file_path st).
  rewrite Hex. cbn [negb].
  destruct (chunk_loop_skip (next_chunk w) n 0 (fuel - n)
              (log (Upload file_path title description) st)) as [st1 [E [_ [C D]]]].
  { intros j Hj. apply Hp. exact Hj. }
  replace (n + (fuel - n))%nat with fuel in E by lia. rewrite E.
  destruct (fuel - n)%nat as [|f] eqn:Ef; [lia|].
  cbn [chunk_loop Nat.add]. rewrite Hr.
  eexists. split; [reflexivity|].
  rewrite !calls_log, !completions_log, C, D, calls_log, completions_log, last_log.
  simpl. repeat split; lia.
Qed.

Lemma upload_gives_up_on_exception_witness :
  exists st',
    upload_video_to_youtube 5 (Examples.with_upload Examples.broken_pipe)
      final_video_filepath "Daily Horoscope Compilation" "00:00 Aries"
      (mkState [final_video_filepath] [])
    = (UploadReturned None, st')
    /\ calls (trace st') = (calls [] + 1 + 1)%nat
    /\ completions (trace st') = completions []
    /\ last (trace st') ProcessFinished = UploadError.
Proof.
  apply (upload_gives_up_on_exception (Examples.with_upload Examples.broken_pipe) 1
           final_video_filepath "Daily Horoscope Compilation" "00:00 Aries"
           (mkState [final_video_filepath] [])).
  - intros k Hk. destruct k as [|k]; [eexists; reflexivity | lia].
  - reflexivity.
  - reflexivity.
  - lia.
Defined.

(** A finished upload whose response has no ['id'] counts as a failure:
    after the [n + 1] calls [upload_video_to_youtube] returns [None] and
    announces no upload. *)
Theorem response_without_id_is_a_failure
    (w : World) (n : nat) (r : Response) (file_path title description : string)
    (st : State) :
  progress_then_complete (next_chunk w) n r ->
  resp_id r = None ->
  exists_ file_path st = true ->
  forall fuel, (n < fuel)%nat ->
    exists st',
      upload_video_to_youtube fuel w file_path title description st
      = (UploadReturned None, st')
      /\ calls (trace st') = (calls (trace st) + n + 1)%nat
      /\ completions (trace st') = completions (trace st)
      /\ last (trace st') ProcessFinished = UploadError.
Proof.
  intros [Hp [s Hc]] Hid Hex fuel Hf. unfold upload_video_to_youtube.
  change (exists_ file_path (log (Upload file_path title description) st))
    with (exists_ file_path st).
  rewrite Hex. cbn [negb].
  destruct (chunk_loop_skip (next_chunk w) n 0 (fuel - n)
              (log (Upload file_path title description) st)) as [st1 [E [_ [C D]]]].
  { intros j Hj. apply Hp. exact Hj. }
  replace (n + (fuel - n))%nat with fuel in E by lia. rewrite E.
  destruct (fuel - n)%nat as [|f] eqn:Ef; [lia|].
  cbn [chunk_loop Nat.add]. rewrite Hc, Hid.
  eexists. split; [reflexivity|].
  rewrite last_log, calls_log, completions_log.
  destruct s as [s|];
    rewrite ?calls_log, ?completions_log, C, D, calls_log, completions_log;
    simpl; repeat split; lia.
Qed.

Lemma response_without_id_is_a_failure_witness :
  exists st',
    upload_video_to_youtube 5 (Examples.with_upload Examples.anonymous_response)
      final_video_filepath "Daily Horoscope Compilation" "00:00 Aries"
      (mkState [final_video_filepath] [])
    = (UploadReturned None, st')
    /\ calls (trace st') = (calls [] + 1 + 1)%nat
    /\ completions (trace st') = completions []
    /\ last (trace st') ProcessFinished = UploadError.
Proof.
  apply (response_without_id_is_a_failure
           (Examples.with_upload Examples.anonymous_response) 1 (mkResponse None)
           final_video_filepath "Daily Horoscope Compilation" "00:00 Aries"
           (mkState [final_video_filepath] [])).
  - split.
    + intros k Hk. destruct k as [|k]; [eexists; reflexivity | lia].
    + eexists; reflexivity.
  - reflexivity.
  - reflexivity.
  - lia.
Defined.

(** The loop of lines 238-241 has no bound of its own: against a request
    that never brings a response nor raises, it is still turning after any
    number of calls, each of them made. *)
Theorem upload_loop_has_no_bound
    (w : World) (file_path title description : string) (st : State) :
  (forall k, exists s, next_chunk w k = Chunk s None) ->
  exists_ file_path st = true ->
  forall fuel,
    exists st',
      upload_video_to_youtube fuel w file_path title description st
      = (UploadRunning, st')
      /\ calls (trace st') = (calls (trace st) + fuel)%nat
      /\ completions (trace st') = completions (trace st).
Proof.
  intros Hp Hex fuel. unfold upload_video_to_youtube.
  change (exists_ file_path (log (Upload file_path title description) st))
    with (exists_ file_path st).
  rewrite Hex. cbn [negb].
  destruct (chunk_loop_skip (next_chunk w) fuel 0 0
              (log (Upload file_path title description) st)) as [st1 [E [_ [C D]]]].
  { intros j _. apply Hp. }
  rewrite Nat.add_0_r in E. rewrite E. cbn [chunk_loop].
  exists st1. split; [reflexivity|].
  rewrite C, D, calls_log, completions_log. simpl. split; lia.
Qed.

Lemma upload_loop_has_no_bound_witness :
  exists st',
    upload_video_to_youtube 40 (Examples.with_upload Examples.stalled)
      final_video_filepath "Daily Horoscope Compilation" "00:00 Aries"
      (mkState [final_video_filepath] [])
    = (UploadRunning, st')
    /\ calls (trace st') = (calls [] + 40)%nat
    /\ completions (trace st') = completions [].
Proof.
  apply (upload_loop_has_no_bound (Examples.with_upload Examples.stalled)
           final_video_filepath "Daily Horoscope Compilation" "00:00 Aries"
           (mkState [final_video_filepath] [])).
  - intros k. eexists. reflexivity.
  - reflexivity.
Defined.

(* ------------------------------------------------------------------ *)
(** ** More on the files of a run *)

Lemma exists_files (p : string) (a b : State) :
  files a = files b -> exists_ p a = exists_ p b.
Proof. unfold exists_. intros ->. reflexivity. Qed.

Lemma filter_absent (p : string) (l : list string) :
  existsb (String.eqb p) l = false ->
  filter (fun q => negb (String.eqb p q)) l = l.
Proof.
  induction l as [|q l IH]; simpl; [reflexivity|].
  intros H. apply orb_false_iff in H. destruct H as [H1 H2].
  rewrite H1. simpl. rewrite IH by exact H2. reflexivity.
Qed.

Lemma exists_remove_keep (p q : string) (st : State) :
  p <> q -> exists_ p (remove q st) = exists_ p st.
Proof.
  intros ne. unfold exists_, remove. simpl.
  induction (files st) as [|r l IH]; simpl; [reflexivity|].
  destruct (String.eqb q r) eqn:E; simpl.
  - apply String.eqb_eq in E. subst r.
    apply String.eqb_neq in ne. rewrite ne. exact IH.
  - rewrite IH. reflexivity.
Qed.

Lemma setup_keeps_files (w : World) (p : string) (st : State) :
  exists_ p st = true -> exists_ p (setup_credentials w st) = true.
Proof.
  intros H. unfold setup_credentials.
  destruct (Py.truthy_opt (GOOGLE_CREDENTIALS_JSON_CONTENT w)),
           (Py.truthy_opt (YOUTUBE_CLIENT_SECRET_JSON_CONTENT w)),
           (YOUTUBE_TOKEN_PICKLE_BASE64 w) as [b64|];
    try destruct (Py.truthy b64 && b64decode w b64);
    repeat apply exists_write; exact H.
Qed.

Lemma chunk_loop_files (req : nat -> ChunkResult) (fuel : nat) :
  forall k st, files (snd (chunk_loop fuel req k st)) = files st.
Proof.
  induction fuel as [|fuel IH]; intros k st; [reflexivity|].
  cbn [chunk_loop]. destruct (req k) as [|s r]; [reflexivity|].
  destruct r as [r|].
  - destruct s; reflexivity.
  - rewrite IH. destruct s; reflexivity.
Qed.

Lemma upload_files (fuel : nat) (w : World) (file_path title description : string)
    (st : State) :
  files (snd (upload_video_to_youtube fuel w file_path title description st)) = files st.
Proof.
  unfold upload_video_to_youtube.
  destruct (negb (exists_ file_path _)); [reflexivity|].
  pose proof (chunk_loop_files (next_chunk w) fuel 0
                (log (Upload file_path title description) st)) as F.
  destruct (chunk_loop fuel (next_chunk w) 0 _) as [[r| |] st1]; simpl in *;
    try exact F.
  destruct (resp_id r); exact F.
Qed.

Lemma get_youtube_service_keeps_files (w : World) (p : string) (st : State) :
  exists_ p st = true -> exists_ p (snd (get_youtube_service w st)) = true.
Proof.
  intros H. destruct (get_youtube_service_state w st) as [->| ->].
  - exact H.
  - apply exists_write. exact H.
Qed.

(** A file the cleanup does not aim at: if it is one of the three temporary
    files, the variable of that file is not set. *)
Lemma cleanup_keeps_files (w : World) (p : string) (st : State) :
  (p = SERVICE_ACCOUNT_FILE_TEMP -> Py.truthy_opt (GOOGLE_CREDENTIALS_JSON_CONTENT w) = false) ->
  (p = CLIENT_SECRETS_FILE_TEMP -> Py.truthy_opt (YOUTUBE_CLIENT_SECRET_JSON_CONTENT w) = false) ->
  (p = TOKEN_PICKLE_FILE_TEMP -> Py.truthy_opt (YOUTUBE_TOKEN_PICKLE_BASE64 w) = false) ->
  exists_ p st = true ->
  exists_ p (cleanup_credentials w st) = true.
Proof.
  intros H1 H2 H3 H.
  assert (step : forall (flag : bool) q s,
             (p = q -> flag = false) -> exists_ p s = true ->
             exists_ p (if flag && exists_ q s then remove q s else s) = true).
  { intros flag q s Hq Hs. destruct flag; [|exact Hs].
    destruct (exists_ q s); [|exact Hs]. cbn [andb].
    destruct (String.eqb_spec p q) as [e|ne]; [specialize (Hq e); discriminate Hq|].
    rewrite exists_remove_keep by exact ne. exact Hs. }
  unfold cleanup_credentials. cbv zeta.
  apply step; [exact H3|]. apply step; [exact H2|]. apply step; [exact H1|]. exact H.
Qed.

Lemma upload_stage_keeps_files (fuel : nat) (w : World) (v : LoopVars) (p : string)
    (st : State) :
  (p = SERVICE_ACCOUNT_FILE_TEMP -> Py.truthy_opt (GOOGLE_CREDENTIALS_JSON_CONTENT w) = false) ->
  (p = CLIENT_SECRETS_FILE_TEMP -> Py.truthy_opt (YOUTUBE_CLIENT_SECRET_JSON_CONTENT w) = false) ->
  (p = TOKEN_PICKLE_FILE_TEMP -> Py.truthy_opt (YOUTUBE_TOKEN_PICKLE_BASE64 w) = false) ->
  exists_ p st = true ->
  exists_ p (snd (upload_stage fuel w v st)) = true.
Proof.
  intros H1 H2 H3 H. unfold upload_stage.
  pose proof (get_youtube_service_keeps_files w p st H) as K.
  destruct (get_youtube_service w st) as [[svc|e] st1]; cbn [snd] in *; [|exact K].
  assert (U : forall u : UploadResult * State,
             files (snd u) = files st1 ->
             exists_ p (snd (match u with
                             | (UploadRunning, s) => (Running, s)
                             | (UploadReturned _, s) =>
                                 (Returned EndOfMain,
                                  log ProcessFinished (cleanup_credentials w s))
                             end)) = true).
  { intros [[id|] s] F; cbn [snd] in *.
    - change (exists_ p (cleanup_credentials w s) = true).
      apply cleanup_keeps_files; auto. rewrite (exists_files p s st1 F). exact K.
    - rewrite (exists_files p s st1 F). exact K. }
  apply U. destruct svc as [c|]; [|reflexivity].
  destruct (exists_ final_video_filepath st1); [|reflexivity].
  apply upload_files.
Qed.

(** Writing the compilation deletes one file at most, the temporary audio
    track. *)
Lemma write_final_video_keeps_files (w : World) (clips : list VideoClip) (p : string)
    (st : State) :
  p <> temp_audiofile ->
  exists_ p st = true ->
  exists_ p (snd (write_final_video w clips st)) = true.
Proof.
  intros ne H. unfold write_final_video.
  destruct (write_videofile w); cbn [snd]; [|apply fold_write_keeps; exact H].
  destruct (existsb _ clips).
  - rewrite exists_remove_keep by exact ne. repeat apply exists_write. exact H.
  - apply exists_write. exact H.
Qed.

(** A run deletes nothing but the temporary credential files whose variable
    is set and moviepy's temporary audio track [temp-audio.m4a] (line 340,
    removed after the encoding by [remove_temp=True], line 341): every other
    file that is on disk at the start (an image, a token file kept from a
    local run) is still there however [main] ends. *)
Theorem run_deletes_only_its_credential_files (fuel : nat) (w : World) (p : string) :
  (p = SERVICE_ACCOUNT_FILE_TEMP -> Py.truthy_opt (GOOGLE_CREDENTIALS_JSON_CONTENT w) = false) ->
  (p = CLIENT_SECRETS_FILE_TEMP -> Py.truthy_opt (YOUTUBE_CLIENT_SECRET_JSON_CONTENT w) = false) ->
  (p = TOKEN_PICKLE_FILE_TEMP -> Py.truthy_opt (YOUTUBE_TOKEN_PICKLE_BASE64 w) = false) ->
  p <> temp_audiofile ->
  existsb (String.eqb p) (disk w) = true ->
  exists_ p (snd (main fuel w)) = true.
Proof.
  intros H1 H2 H3 ne H.
  assert (H0 : exists_ p (setup_credentials w (mkState (disk w) [])) = true)
    by (apply setup_keeps_files; exact H).
  destruct (environ_cases w) as [[G _]|[G _]].
  2:{ rewrite (main_after_line_49 fuel w G). exact H0. }
  rewrite (main_without_line_49 fuel w G). unfold run.
  pose proof (topic_loop_keeps_files w p ZODIAC_SIGNS init_vars _ H0) as K.
  destruct (topic_loop w ZODIAC_SIGNS init_vars _) as [[v|e] st]; cbn [snd] in *;
    [|exact K].
  destruct (all_video_segments v) as [|s0 segs]; [exact K|].
  match goal with
  | |- context [write_final_video w ?clips ?s] =>
      pose proof (write_final_video_keeps_files w clips p s ne K) as W;
      destruct (write_final_video w clips s) as [[|] st1]
  end; cbn [snd] in *; [|exact W].
  apply upload_stage_keeps_files; auto.
Qed.

Lemma run_deletes_only_its_credential_files_witness :
  exists_ TOKEN_PICKLE_FILE_TEMP (snd (main 5 Examples.stale_token)) = true.
Proof.
  apply (run_deletes_only_its_credential_files 5 Examples.stale_token
           TOKEN_PICKLE_FILE_TEMP).
  - intros H. discriminate H.
  - intros H. discriminate H.
  - intros _. reflexivity.
  - intros H. discriminate H.
  - reflexivity.
Defined.

(** The one other file a run deletes: a [temp-audio.m4a] that was on disk
    before a run that encodes its video is gone after it. *)
Example temporary_audio_is_removed :
  let w := mkWorld None (Some "{}") None (fun _ => true)
             ("temp-audio.m4a" :: disk Examples.sunny)
             Examples.answers Examples.voice Examples.studio true
             (Ok (mkCreds true false true)) true None "November 03, 2026"
             Examples.two_chunks None None [] in
  fst (main 5 w) = Returned EndOfMain
  /\ exists_ temp_audiofile (snd (main 5 w)) = false.
Proof. vm_compute. split; reflexivity. Qed.

Lemma audio_file_marked (sign : string) :
  Py.contains "_horoscope.mp3" (audio_file sign) = true.
Proof.
  unfold audio_file, join.
  apply contains_later, contains_later, contains_later.
  apply (contains_here "_horoscope.mp3" "").
Qed.

(** The topic loop creates audio files and nothing else. *)
Lemma process_sign_creates_only_audio (w : World) (p sign : string) (v : LoopVars)
    (st : State) :
  Py.contains "_horoscope.mp3" p = false ->
  exists_ p st = false ->
  exists_ p (snd (process_sign w sign v st)) = false.
Proof.
  intros Hp H.
  assert (ne : p <> audio_file sign).
  { intros ->. rewrite audio_file_marked in Hp. discriminate Hp. }
  assert (W : exists_ p (write (audio_file sign) (log (Fetch sign) st)) = false)
    by (rewrite exists_write_other by exact ne; exact H).
  unfold process_sign.
  destruct (fetch_horoscope w sign) as [raw|e]; [|exact H].
  destruct (fetch_failed raw); [exact H|].
  unfold text_to_speech_google.
  destruct (synthesize_speech w (regenerate_text raw sign)); cbn [negb]; [|exact H].
  destruct (choose_image sign _); [|exact W].
  destruct (AudioFileClip (media w) (audio_file sign)); [|exact W].
  destruct (create_segment_video _ _ _ _ _ _); exact W.
Qed.

Lemma topic_loop_creates_only_audio (w : World) (p : string) (signs : list string) :
  Py.contains "_horoscope.mp3" p = false ->
  forall v st, exists_ p st = false -> exists_ p (snd (topic_loop w signs v st)) = false.
Proof.
  intros Hp. induction signs as [|sign rest IH]; intros v st H; simpl; [exact H|].
  pose proof (process_sign_creates_only_audio w p sign v st Hp H) as P.
  destruct (process_sign w sign v st) as [[v1|e] st1]; simpl in *; auto.
Qed.

Lemma quiet_is_silent (e : Event) :
  renders_or_uploads e = false -> contacts_youtube e = false /\ is_upload_event e = false.
Proof. destruct e; simpl; intros H; try discriminate H; split; reflexivity. Qed.

Lemma cleanup_trace (w : World) (st : State) (e : Event) :
  In e (trace (cleanup_credentials w st)) -> In e (trace st) \/ exists p, e = Removed p.
Proof.
  assert (step : forall (flag : bool) q s,
             In e (trace (if flag then remove q s else s)) ->
             In e (trace s) \/ exists p, e = Removed p).
  { intros flag q s. destruct flag; [|auto].
    unfold remove. simpl. intros H. apply in_app_or in H.
    destruct H as [H|[<-|[]]]; [left; exact H | right; eexists; reflexivity]. }
  unfold cleanup_credentials. cbv zeta. intros H.
  apply step in H. destruct H as [H|H]; [|right; exact H].
  apply step in H. destruct H as [H|H]; [|right; exact H].
  apply step in H. exact H.
Qed.

Lemma fold_write_trace (ps : list string) :
  forall st, trace (fold_left (fun s q => write q s) ps st) = trace st.
Proof.
  induction ps as [|q ps IH]; intros st; simpl; [reflexivity|].
  rewrite IH. apply trace_write.
Qed.

Lemma write_final_video_failed (w : World) (clips : list VideoClip) (st : State) :
  write_videofile w = false ->
  exists st', write_final_video w clips st = (false, st') /\ trace st' = trace st.
Proof.
  intros H. unfold write_final_video. rewrite H. eexists. split; [reflexivity|].
  apply fold_write_trace.
Qed.

(** A successful encoding creates the compilation and nothing else, and
    says nothing beyond the removal of its temporary file. *)
Lemma write_final_video_done (w : World) (clips : list VideoClip) (st : State) :
  write_videofile w = true ->
  exists st',
    write_final_video w clips st = (true, st')
    /\ (forall p, p <> final_video_filepath -> exists_ p st = false -> exists_ p st' = false)
    /\ (forall e, In e (trace st') -> In e (trace st) \/ exists p, e = Removed p)
    /\ (forall e, In e (trace st) -> In e (trace st')).
Proof.
  intros H. unfold write_final_video. rewrite H. eexists. split; [reflexivity|].
  destruct (existsb _ clips).
  - split; [|split].
    + intros p ne Hp.
      destruct (String.eqb_spec p temp_audiofile) as [->|ne'].
      * apply exists_remove_same.
      * apply exists_remove_other.
        rewrite exists_write_other by exact ne.
        rewrite exists_write_other by exact ne'. exact Hp.
    + intros e He. unfold remove in He. simpl in He. apply in_app_or in He.
      destruct He as [He|[<-|[]]]; [|right; eexists; reflexivity].
      rewrite !trace_write in He. left. exact He.
    + intros e He. unfold remove. simpl. apply in_or_app. left.
      rewrite !trace_write. exact He.
  - split; [|split].
    + intros p ne Hp. rewrite exists_write_other by exact ne. exact Hp.
    + intros e He. rewrite trace_write in He. left. exact He.
    + intros e He. rewrite trace_write. exact He.
Qed.

(** Without credentials the video is rendered but never uploaded: if after
    the set-up neither the token file nor the client secrets file is on
    disk, then no event of the upload occurs whatever the fuel, the run never
    waits on the upload loop, and a run that encodes its video reaches the
    end of [main]. *)
Theorem no_credentials_no_upload (fuel : nat) (w : World) :
  exists_ TOKEN_PICKLE_FILE_TEMP (setup_credentials w (mkState (disk w) [])) = false ->
  exists_ CLIENT_SECRETS_FILE_TEMP (setup_credentials w (mkState (disk w) [])) = false ->
  (forall e, In e (trace (snd (main fuel w))) -> is_upload_event e = false)
  /\ fst (main fuel w) <> Running
  /\ (forall v s segs,
        timeline w = Ok v -> all_video_segments v = s :: segs ->
        write_videofile w = true ->
        fst (main fuel w) = Returned EndOfMain
        /\ In (WriteVideo final_video_filepath (sum_durations (s :: segs)))
              (trace (snd (main fuel w)))).
Proof.
  intros HT HC.
  assert (Q0 : quiet (setup_credentials w (mkState (disk w) [])))
    by (unfold quiet; rewrite setup_credentials_trace; constructor).
  destruct (environ_cases w) as [[G _]|[G _]].
  2:{ unfold timeline. rewrite (main_after_line_49 fuel w G), (run_loop_after_line_49 w G).
      cbn [fst snd]. split; [|split; [discriminate|]].
      - intros e He.
        assert (Q1 : quiet (log (Fetch "aries")
                              (setup_credentials w (mkState (disk w) []))))
          by (apply quiet_log; [reflexivity | exact Q0]).
        unfold quiet in Q1. rewrite Forall_forall in Q1. apply quiet_is_silent, Q1, He.
      - intros v s segs H. discriminate H. }
  unfold timeline. rewrite (main_without_line_49 fuel w G), (run_loop_without_line_49 w G).
  unfold run.
  pose proof (topic_loop_quiet w ZODIAC_SIGNS init_vars
                (setup_credentials w (mkState (disk w) []))) as Q.
  specialize (Q Q0). unfold quiet in Q. rewrite Forall_forall in Q.
  pose proof (topic_loop_creates_only_audio w TOKEN_PICKLE_FILE_TEMP ZODIAC_SIGNS
                eq_refl init_vars _ HT) as KT.
  pose proof (topic_loop_creates_only_audio w CLIENT_SECRETS_FILE_TEMP ZODIAC_SIGNS
                eq_refl init_vars _ HC) as KC.
  destruct (topic_loop w ZODIAC_SIGNS init_vars _) as [[v|e] st]; cbn [fst snd] in *.
  2:{ split; [intros e0 He; apply quiet_is_silent, Q, He|].
      split; [discriminate|]. intros v s segs H. discriminate H. }
  destruct (all_video_segments v) as [|s0 segs0] eqn:Es.
  { split.
    - intros e He. unfold log in He. simpl in He. apply in_app_or in He.
      destruct He as [He|[<-|[]]]; [apply quiet_is_silent, Q, He | reflexivity].
    - split; [discriminate|]. intros v' s segs [= <-] H. rewrite Es in H. discriminate H. }
  set (st1 := log (WriteVideo final_video_filepath
                     (duration (concatenate_videoclips (s0 :: segs0)))) st).
  assert (W1 : forall e, In e (trace st1) -> is_upload_event e = false).
  { intros e He. unfold st1, log in He. simpl in He. apply in_app_or in He.
    destruct He as [He|[<-|[]]]; [apply quiet_is_silent, Q, He | reflexivity]. }
  destruct (write_videofile w) eqn:Hwv.
  2:{ destruct (write_final_video_failed w (s0 :: segs0) st1 Hwv) as [st' [-> Tr]].
      cbn [fst snd]. rewrite Tr.
      split; [exact W1|]. split; [discriminate|]. intros v' s segs _ _ H. discriminate H. }
  destruct (write_final_video_done w (s0 :: segs0) st1 Hwv) as [st2 [-> [Fs [Tr Tk]]]].
  assert (T2 : exists_ TOKEN_PICKLE_FILE_TEMP st2 = false).
  { apply Fs; [intros H; discriminate H | exact KT]. }
  assert (C2 : exists_ CLIENT_SECRETS_FILE_TEMP st2 = false).
  { apply Fs; [intros H; discriminate H | exact KC]. }
  assert (W2 : forall e, In e (trace st2) -> is_upload_event e = false).
  { intros e He. destruct (Tr e He) as [H|[p ->]]; [apply W1, H | reflexivity]. }
  assert (Gs : get_youtube_service w st2 = (Ok None, log GetService st2)).
  { unfold get_youtube_service.
    change (exists_ TOKEN_PICKLE_FILE_TEMP (log GetService st2))
      with (exists_ TOKEN_PICKLE_FILE_TEMP st2).
    change (exists_ CLIENT_SECRETS_FILE_TEMP (log GetService st2))
      with (exists_ CLIENT_SECRETS_FILE_TEMP st2).
    rewrite T2, C2. reflexivity. }
  unfold upload_stage. rewrite Gs. cbn [fst snd].
  split; [|split; [discriminate|]].
  - intros e He. unfold log in He at 1. simpl in He. apply in_app_or in He.
    destruct He as [He|[<-|[]]]; [|reflexivity].
    apply cleanup_trace in He. destruct He as [He|[p ->]]; [|reflexivity].
    unfold log in He. simpl in He. apply in_app_or in He.
    destruct He as [He|[<-|[]]]; [|reflexivity].
    apply W2, He.
  - intros v' s segs [= <-] Hs _. split; [reflexivity|].
    rewrite Es in Hs. injection Hs as <- <-.
    unfold log at 1. simpl. apply in_or_app. left.
    assert (I : In (WriteVideo final_video_filepath (sum_durations (s0 :: segs0)))
                   (trace (log GetService st2))).
    { unfold log. simpl. apply in_or_app. left. apply Tk.
      unfold st1, log. simpl. apply in_or_app. right. left. reflexivity. }
    revert I. generalize (log GetService st2). intros s I.
    unfold cleanup_credentials. cbv zeta.
    assert (step : forall (flag : bool) q s' x, In x (trace s') ->
               In x (trace (if flag then remove q s' else s'))).
    { intros flag q s' x Hx. destruct flag; [|exact Hx].
      unfold remove. simpl. apply in_or_app. left. exact Hx. }
    apply step, step, step, I.
Qed.

Lemma no_credentials_no_upload_witness :
  (forall e, In e (trace (snd (main 5 Examples.no_credentials))) -> is_upload_event e = false)
  /\ fst (main 5 Examples.no_credentials) <> Running
  /\ fst (main 5 Examples.no_credentials) = Returned EndOfMain.
Proof.
  destruct (no_credentials_no_upload 5 Examples.no_credentials) as [A [B C]];
    [reflexivity | reflexivity |].
  split; [exact A|]. split; [exact B|].
  destruct (timeline Examples.no_credentials) as [v|e] eqn:T;
    [|vm_compute in T; discriminate T].
  destruct (all_video_segments v) as [|s segs] eqn:S.
  - vm_compute in T. injection T as <-. discriminate S.
  - exact (proj1 (C v s segs eq_refl S eq_refl)).
Defined.

(** When the encoder fails nothing reaches YouTube: no service is asked for
    and no upload is started, whatever else happens in the run; and a run
    that had segments to encode returns at line 346, the attempt to write
    the video being the last thing it did. *)
Theorem failed_encoding_contacts_nobody (fuel : nat) (w : World) :
  write_videofile w = false ->
  (forall e, In e (trace (snd (main fuel w))) -> contacts_youtube e = false)
  /\ (forall v s segs,
        timeline w = Ok v -> all_video_segments v = s :: segs ->
        fst (main fuel w) = Returned WriteFailed
        /\ last (trace (snd (main fuel w))) ProcessFinished
           = WriteVideo final_video_filepath (sum_durations (s :: segs))).
Proof.
  intros Hw.
  assert (Q0 : quiet (setup_credentials w (mkState (disk w) [])))
    by (unfold quiet; rewrite setup_credentials_trace; constructor).
  destruct (environ_cases w) as [[G _]|[G _]].
  2:{ unfold timeline. rewrite (main_after_line_49 fuel w G), (run_loop_after_line_49 w G).
      cbn [fst snd]. split.
      - intros e He.
        assert (Q1 : quiet (log (Fetch "aries")
                              (setup_credentials w (mkState (disk w) []))))
          by (apply quiet_log; [reflexivity | exact Q0]).
        unfold quiet in Q1. rewrite Forall_forall in Q1. apply quiet_is_silent, Q1, He.
      - intros v s segs H. discriminate H. }
  unfold timeline. rewrite (main_without_line_49 fuel w G), (run_loop_without_line_49 w G).
  unfold run.
  pose proof (topic_loop_quiet w ZODIAC_SIGNS init_vars
                (setup_credentials w (mkState (disk w) []))) as Q.
  specialize (Q Q0). unfold quiet in Q. rewrite Forall_forall in Q.
  destruct (topic_loop w ZODIAC_SIGNS init_vars _) as [[v|e] st]; cbn [fst snd] in *.
  2:{ split; [intros e0 He; apply quiet_is_silent, Q, He|].
      intros v s segs H. discriminate H. }
  destruct (all_video_segments v) as [|s0 segs0] eqn:Es.
  { split.
    - intros e He. unfold log in He. simpl in He. apply in_app_or in He.
      destruct He as [He|[<-|[]]]; [apply quiet_is_silent, Q, He | reflexivity].
    - intros v' s segs [= <-] H. rewrite Es in H. discriminate H. }
  match goal with
  | |- context [write_final_video w ?clips ?s1] =>
      destruct (write_final_video_failed w clips s1 Hw) as [st' [-> Tr]]
  end.
  cbn [fst snd]. rewrite Tr. split.
  - intros e He. unfold log in He. simpl in He. apply in_app_or in He.
    destruct He as [He|[<-|[]]]; [apply quiet_is_silent, Q, He | reflexivity].
  - intros v' s segs [= <-] Hs. rewrite Es in Hs. injection Hs as <- <-.
    split; [reflexivity | apply last_log].
Qed.

Lemma failed_encoding_contacts_nobody_witness :
  (forall e, In e (trace (snd (main 5 Examples.disk_full))) -> contacts_youtube e = false)
  /\ fst (main 5 Examples.disk_full) = Returned WriteFailed.
Proof.
  destruct (failed_encoding_contacts_nobody 5 Examples.disk_full) as [A B];
    [reflexivity|].
  split; [exact A|].
  destruct (timeline Examples.disk_full) as [v|e] eqn:T;
    [|vm_compute in T; discriminate T].
  destruct (all_video_segments v) as [|s segs] eqn:S.
  - vm_compute in T. injection T as <-. discriminate S.
  - exact (proj1 (B v s segs eq_refl S)).
Defined.

Lemma early_return_skips_cleanup_witness :
  exists_ CLIENT_SECRETS_FILE_TEMP (snd (main 5 Examples.offline)) = true.
Proof.
  apply (early_return_skips_cleanup 5 Examples.offline CLIENT_SECRETS_FILE_TEMP).
  - left. vm_compute. reflexivity.
  - reflexivity.
Defined.

Lemma normal_return_cleans_up_witness :
  exists_ CLIENT_SECRETS_FILE_TEMP (snd (main 5 Examples.sunny)) = false.
Proof.
  destruct (normal_return_cleans_up 5 Examples.sunny) as [_ [B _]];
    [vm_compute; reflexivity|].
  apply B. reflexivity.
Defined.

(** Set-up and cleanup undo each other: on a disk that holds none of the
    three temporary files, the cleanup of lines 371-377 applied after the
    set-up of lines 42-67 leaves exactly the files that were there, in their
    order, whichever variables are set and whether or not the token text
    decodes. *)
Theorem setup_then_cleanup_restores_files (w : World) (st : State) :
  exists_ SERVICE_ACCOUNT_FILE_TEMP st = false ->
  exists_ CLIENT_SECRETS_FILE_TEMP st = false ->
  exists_ TOKEN_PICKLE_FILE_TEMP st = false ->
  files (cleanup_credentials w (setup_credentials w st)) = files st.
Proof.
  assert (N12 : String.eqb SERVICE_ACCOUNT_FILE_TEMP CLIENT_SECRETS_FILE_TEMP = false) by reflexivity.
  assert (N13 : String.eqb SERVICE_ACCOUNT_FILE_TEMP TOKEN_PICKLE_FILE_TEMP = false) by reflexivity.
  assert (N21 : String.eqb CLIENT_SECRETS_FILE_TEMP SERVICE_ACCOUNT_FILE_TEMP = false) by reflexivity.
  assert (N23 : String.eqb CLIENT_SECRETS_FILE_TEMP TOKEN_PICKLE_FILE_TEMP = false) by reflexivity.
  assert (N31 : String.eqb TOKEN_PICKLE_FILE_TEMP SERVICE_ACCOUNT_FILE_TEMP = false) by reflexivity.
  assert (N32 : String.eqb TOKEN_PICKLE_FILE_TEMP CLIENT_SECRETS_FILE_TEMP = false) by reflexivity.
  unfold setup_credentials, cleanup_credentials.
  revert N12 N13 N21 N23 N31 N32.
  generalize SERVICE_ACCOUNT_FILE_TEMP CLIENT_SECRETS_FILE_TEMP TOKEN_PICKLE_FILE_TEMP.
  intros p1 p2 p3 N12 N13 N21 N23 N31 N32 H1 H2 H3.
  destruct st as [l tr]. unfold exists_ in H1, H2, H3. cbn [files] in *.
  pose proof (String.eqb_refl p1) as R1.
  pose proof (String.eqb_refl p2) as R2.
  pose proof (String.eqb_refl p3) as R3.
  pose proof (filter_absent p1 l H1) as F1.
  pose proof (filter_absent p2 l H2) as F2.
  pose proof (filter_absent p3 l H3) as F3.
  destruct (Py.truthy_opt (GOOGLE_CREDENTIALS_JSON_CONTENT w)),
           (Py.truthy_opt (YOUTUBE_CLIENT_SECRET_JSON_CONTENT w)),
           (YOUTUBE_TOKEN_PICKLE_BASE64 w) as [b|];
    cbn [Py.truthy_opt];
    try (destruct (Py.truthy b), (b64decode w b));
    cbv zeta;
    repeat (progress (try unfold write; try unfold remove; try unfold exists_;
            cbn [files trace andb orb negb existsb filter app];
            rewrite ?existsb_app, ?filter_app, ?H1, ?H2, ?H3, ?F1, ?F2, ?F3,
              ?N12, ?N13, ?N21, ?N23, ?N31, ?N32, ?R1, ?R2, ?R3, ?app_nil_r));
    reflexivity.
Qed.

Lemma setup_then_cleanup_restores_files_witness :
  files (cleanup_credentials Examples.offline
           (setup_credentials Examples.offline (mkState (disk Examples.offline) [])))
  = disk Examples.offline.
Proof.
  apply (setup_then_cleanup_restores_files Examples.offline
           (mkState (disk Examples.offline) [])); reflexivity.
Defined.
